(** * DNS authentication checker: the evaluator of [src/frontend/src/App.js]

    A shallow embedding of [checkDNS] and [handleCheck] (the only decision
    logic of the application) and the properties of the SPF, DMARC and DKIM
    classification, of the selector search and of the overall verdict.

    JavaScript strings are modelled as [string] (8-bit characters): the
    model covers input whose characters are ASCII, which is what DNS names
    and TXT record data are made of; a statement that depends on what
    [toLowerCase] yields carries this as a hypothesis ([ascii_only]).

    The code is embedded twice.  The first embedding types a parsed
    response body as the service documents it (an [Answer] that is absent
    or an array of objects with string [data]); the second one, further
    down, takes bodies of any shape, and the two are proved to coincide on
    the typed bodies ([handleCheck_raw_embed]). *)

From Stdlib Require Import String Ascii List Bool Arith Lia.
Import ListNotations.
Local Open Scope string_scope.
Local Open Scope nat_scope.
Local Open Scope list_scope.

(** ** String primitives of the JavaScript runtime used by the source *)

Module JS.

(** The double-quote character, matched by the regular expression of
    [replace] in the source. *)
Definition dquote : ascii := ascii_of_nat 34.

(** [s.includes(pat)]: [pat] occurs in [s] as a contiguous substring. *)
Fixpoint includes (s pat : string) : bool :=
  if prefix pat s then true
  else match s with
       | EmptyString => false
       | String _ s' => includes s' pat
       end.

(** [s.split(sep)] for a one-character separator: the pieces between the
    occurrences of [sep], in order; never an empty array. *)
Fixpoint split (s : string) (sep : ascii) : list string :=
  match s with
  | EmptyString => [EmptyString]
  | String c s' =>
      if Ascii.eqb c sep then EmptyString :: split s' sep
      else match split s' sep with
           | piece :: pieces => String c piece :: pieces
           | [] => [String c EmptyString]
           end
  end.

Definition lower (c : ascii) : ascii :=
  let n := nat_of_ascii c in
  if (65 <=? n) && (n <=? 90) then ascii_of_nat (n + 32) else c.

(** [s.toLowerCase()] on ASCII text. *)
Fixpoint toLowerCase (s : string) : string :=
  match s with
  | EmptyString => EmptyString
  | String c s' => String (lower c) (toLowerCase s')
  end.

(** [s.replace(/c/g, by)] for a regular expression that matches the single
    character [c]: every occurrence is replaced, none is kept. *)
Fixpoint replace_g (s : string) (c : ascii) (by_ : string) : string :=
  match s with
  | EmptyString => EmptyString
  | String x s' =>
      if Ascii.eqb x c then (by_ ++ replace_g s' c by_)%string
      else String x (replace_g s' c by_)
  end.

End JS.

(** A string in which [c] does not occur. *)
Fixpoint free_of (c : ascii) (s : string) : bool :=
  match s with
  | EmptyString => true
  | String x s' => negb (Ascii.eqb x c) && free_of c s'
  end.

(** ** Data model *)

(** One element of the [Answer] array of the DNS-over-HTTPS response. *)
Record RawAnswer := { name : string; data : string }.

(** The [status] strings of a record evaluation.  The source produces
    'valid', 'warning' and 'missing'; 'invalid' is only known to the
    rendering code ([getStatusColor], [getStatusIcon]). *)
Inductive RecordStatus := valid | warning | missing | invalid.

Definition status_string (s : RecordStatus) : string :=
  match s with
  | valid => "valid" | warning => "warning"
  | missing => "missing" | invalid => "invalid"
  end.

Definition status_eqb (a b : RecordStatus) : bool :=
  match a, b with
  | valid, valid | warning, warning | missing, missing | invalid, invalid => true
  | _, _ => false
  end.

(** The [overall_status] strings: 'pass', 'warning', 'fail'. *)
Inductive OverallStatus := pass | warn | fail.

Definition overall_string (o : OverallStatus) : string :=
  match o with pass => "pass" | warn => "warning" | fail => "fail" end.

(** The object literals assigned to [spf], [dmarc] and [dkim];
    [record: null] is [None]. *)
Record RecordEvaluation := {
  type : string;
  status : RecordStatus;
  record : option string;
  issues : list string;
  recommendations : list string
}.

(** The object passed to [setResult]. *)
Module Report.
Record t := {
  email : string;
  domain : string;
  overall_status : OverallStatus;
  spf : RecordEvaluation;
  dmarc : RecordEvaluation;
  dkim : RecordEvaluation;
  timestamp : string
}.
End Report.

(** ** The world [handleCheck] runs in *)

(** What one request to the DNS-over-HTTPS service comes to. *)
Inductive FetchOutcome :=
| FetchRejects                              (* [fetch] rejects: network error *)
| JsonRejects                               (* [response.json()] rejects *)
| Body (Answer : option (list RawAnswer)).  (* parsed body; no [Answer] key is [None] *)

(** The resolver: the outcome of a request, by URL. *)
Definition Resolver := string -> FetchOutcome.

(** The four [useState] cells of [App], the list of URLs fetched so far
    (oldest first) and the instant [new Date()] reads. *)
Record World := {
  email : string;
  loading : bool;
  result : option Report.t;
  error : string;
  fetched : list string;
  clock : string
}.

Definition setLoading_w (b : bool) (w : World) : World :=
  {| email := email w; loading := b; result := result w; error := error w;
     fetched := fetched w; clock := clock w |}.
Definition setResult_w (r : option Report.t) (w : World) : World :=
  {| email := email w; loading := loading w; result := r; error := error w;
     fetched := fetched w; clock := clock w |}.
Definition setError_w (e : string) (w : World) : World :=
  {| email := email w; loading := loading w; result := result w; error := e;
     fetched := fetched w; clock := clock w |}.
Definition log_w (url : string) (w : World) : World :=
  {| email := email w; loading := loading w; result := result w; error := error w;
     fetched := fetched w ++ [url]; clock := clock w |}.

(** ** A state and exception monad for the async functions *)

Inductive Exn := TypeError | NetworkError | SyntaxError.

Inductive Completion (A : Type) :=
| Normal (a : A)
| Throw (e : Exn).
Arguments Normal {A} a.
Arguments Throw {A} e.

Definition Js (A : Type) : Type := World -> Completion A * World.

Definition ret {A} (a : A) : Js A := fun w => (Normal a, w).

Definition throw {A} (e : Exn) : Js A := fun w => (Throw e, w).

Definition bind {A B} (m : Js A) (k : A -> Js B) : Js B :=
  fun w => match m w with
           | (Normal a, w') => k a w'
           | (Throw e, w') => (Throw e, w')
           end.

Notation "x <- m ;; k" := (bind m (fun x => k))
  (at level 61, m at next level, right associativity).
Notation "m ;;; k" := (bind m (fun _ => k))
  (at level 61, right associativity).

(** [try { body } catch (err) { handler }] *)
Definition try_catch {A} (body : Js A) (handler : Exn -> Js A) : Js A :=
  fun w => match body w with
           | (Normal a, w') => (Normal a, w')
           | (Throw e, w') => handler e w'
           end.

(** [try { body } finally { fin }] *)
Definition try_finally {A} (body : Js A) (fin : Js unit) : Js A :=
  fun w => match body w with
           | (c, w') => match fin w' with
                        | (Normal _, w'') => (c, w'')
                        | (Throw e, w'') => (Throw e, w'')
                        end
           end.

Definition setLoading (b : bool) : Js unit := fun w => (Normal tt, setLoading_w b w).
Definition setResult (r : option Report.t) : Js unit := fun w => (Normal tt, setResult_w r w).
Definition setError (e : string) : Js unit := fun w => (Normal tt, setError_w e w).
Definition getEmail : Js string := fun w => (Normal (email w), w).

(** [new Date().toISOString()] *)
Definition newDateISO : Js string := fun w => (Normal (clock w), w).

(** ** [checkDNS] *)

Section Evaluator.

Variable dns : Resolver.

(** The URL of the template literal in [checkDNS]. *)
Definition resolveUrl (domain recordType : string) : string :=
  ("https://dns.google/resolve?name=" ++ domain ++ "&type=" ++ recordType)%string.

(** [await fetch(url)]: the request is recorded; the value is the parsed
    body when there is one. *)
Definition fetch (url : string) : Js (option (option (list RawAnswer))) :=
  fun w => match dns url with
           | FetchRejects => (Throw NetworkError, log_w url w)
           | JsonRejects => (Normal None, log_w url w)
           | Body a => (Normal (Some a), log_w url w)
           end.

(** [await response.json()] *)
Definition json (response : option (option (list RawAnswer)))
  : Js (option (list RawAnswer)) :=
  match response with
  | Some body => ret body
  | None => throw SyntaxError
  end.

Definition checkDNS (domain recordType : string) : Js (list RawAnswer) :=
  try_catch
    (response <- fetch (resolveUrl domain recordType) ;;
     Answer <- json response ;;
     ret (match Answer with Some a => a | None => [] end))
    (fun _ => ret []).

(** ** The three classifications of [handleCheck] *)

(** Lines 136-166: the SPF evaluation of the TXT answers of the domain. *)
Definition spf_evaluation (txtRecords : list RawAnswer) : RecordEvaluation :=
  let spfRecords :=
    filter (fun record => JS.includes (data record) "v=spf1") txtRecords in
  match spfRecords with
  | [] =>
      {| type := "SPF"; status := missing; record := None;
         issues := ["No SPF record found"];
         recommendations := ["Add an SPF record to your DNS";
                             "Example: v=spf1 include:_spf.google.com ~all"] |}
  | first :: _ =>
      let spfRecord := JS.replace_g (data first) JS.dquote "" in
      let '(issues, recommendations) :=
        if negb (JS.includes spfRecord "~all") && negb (JS.includes spfRecord "-all")
        then ([] ++ ["SPF record should end with an 'all' mechanism"],
              [] ++ ["Add ~all (softfail) or -all (hardfail) at the end"])
        else ([], []) in
      {| type := "SPF";
         status := if length issues =? 0 then valid else warning;
         record := Some spfRecord;
         issues := issues;
         recommendations := recommendations |}
  end.

(** Lines 170-200: the DMARC evaluation of the TXT answers of
    [_dmarc.domain]. *)
Definition dmarc_evaluation (dmarcRecords : list RawAnswer) : RecordEvaluation :=
  let dmarcFound :=
    filter (fun record => JS.includes (data record) "v=DMARC1") dmarcRecords in
  match dmarcFound with
  | [] =>
      {| type := "DMARC"; status := missing; record := None;
         issues := ["No DMARC record found"];
         recommendations :=
           ["Add a DMARC record to your DNS";
            "Example: v=DMARC1; p=quarantine; rua=mailto:dmarc@yourdomain.com"] |}
  | first :: _ =>
      let dmarcRecord := JS.replace_g (data first) JS.dquote "" in
      let '(issues, recommendations) :=
        if JS.includes dmarcRecord "p=none"
        then ([] ++ ["DMARC policy is set to 'none' - emails won't be protected"],
              [] ++ ["Consider upgrading to p=quarantine or p=reject"])
        else ([], []) in
      {| type := "DMARC";
         status := if length issues =? 0 then valid else warning;
         record := Some dmarcRecord;
         issues := issues;
         recommendations := recommendations |}
  end.

Definition dkimSelectors : list string := ["default"; "selector1"; "google"].

(** The initial value of [dkim] (lines 204-210). *)
Definition dkim_missing : RecordEvaluation :=
  {| type := "DKIM"; status := missing; record := None;
     issues := ["No DKIM records found with common selectors"];
     recommendations := ["Set up DKIM signing for your email service";
                         "Common selectors checked: default, selector1, google"] |}.

(** The object assigned to [dkim] when a selector has an answer. *)
Definition dkim_found (selector : string) : RecordEvaluation :=
  {| type := "DKIM"; status := valid;
     record := Some ("Selector: " ++ selector ++ " (found)")%string;
     issues := []; recommendations := [] |}.

(** The [for ... of] loop of lines 212-224, with its [break]. *)
Fixpoint dkim_loop (domain : string) (selectors : list string)
         (dkim : RecordEvaluation) : Js RecordEvaluation :=
  match selectors with
  | [] => ret dkim
  | selector :: rest =>
      dkimRecords <- checkDNS (selector ++ "._domainkey." ++ domain)%string "TXT" ;;
      if 0 <? length dkimRecords then ret (dkim_found selector)
      else dkim_loop domain rest dkim
  end.

(** Lines 227-238: the overall status of the three statuses. *)
Definition overallStatus (spf dmarc dkim : RecordStatus) : OverallStatus :=
  let statuses := [spf; dmarc; dkim] in
  let validCount := length (filter (fun s => status_eqb s valid) statuses) in
  let missingCount := length (filter (fun s => status_eqb s missing) statuses) in
  if 2 <=? validCount then pass
  else if 2 <=? missingCount then fail
  else warn.

(** ** [handleCheck] *)

Definition generic_error : string :=
  "An error occurred while checking DNS records. Please try again.".

(** The body of the [try] block. *)
Definition handleCheck_body (email : string) : Js unit :=
  domain <- match nth_error (JS.split email "@") 1 with
            | Some part => ret (JS.toLowerCase part)
            | None => throw TypeError   (* [undefined.toLowerCase()] *)
            end ;;
  txtRecords <- checkDNS domain "TXT" ;;
  let spf := spf_evaluation txtRecords in
  dmarcRecords <- checkDNS ("_dmarc." ++ domain)%string "TXT" ;;
  let dmarc := dmarc_evaluation dmarcRecords in
  dkim <- dkim_loop domain dkimSelectors dkim_missing ;;
  let overall := overallStatus (status spf) (status dmarc) (status dkim) in
  now <- newDateISO ;;
  setResult (Some {| Report.email := email;
                     Report.domain := domain;
                     Report.overall_status := overall;
                     Report.spf := spf;
                     Report.dmarc := dmarc;
                     Report.dkim := dkim;
                     Report.timestamp := now |}).

Definition handleCheck : Js unit :=
  email <- getEmail ;;
  if (email =? "")%string then ret tt          (* [if (!email) return;] *)
  else
    setLoading true ;;;
    setError "" ;;;
    setResult None ;;;
    try_finally
      (try_catch (handleCheck_body email)
                 (fun _ => setError generic_error))
      (setLoading false).

(** The world after a run of [handleCheck]. *)
Definition after_check (w : World) : World := snd (handleCheck w).

End Evaluator.

(** The answers [checkDNS] returns for a URL. *)
Definition answers (dns : Resolver) (url : string) : list RawAnswer :=
  match dns url with
  | Body (Some a) => a
  | _ => []
  end.

(** ** Vocabulary of the statements *)

(** The URL of the TXT query for a DKIM selector of a domain. *)
Definition selectorUrl (domain selector : string) : string :=
  resolveUrl (selector ++ "._domainkey." ++ domain)%string "TXT".

(** A selector whose query has at least one answer. *)
Definition has_answer (dns : Resolver) (domain selector : string) : bool :=
  0 <? length (answers dns (selectorUrl domain selector)).

(** The URLs the selector loop requests: one per selector, up to and
    including the first selector with an answer. *)
Fixpoint dkim_urls (dns : Resolver) (domain : string) (selectors : list string)
  : list string :=
  match selectors with
  | [] => []
  | selector :: rest =>
      selectorUrl domain selector ::
      (if has_answer dns domain selector then [] else dkim_urls dns domain rest)
  end.

(** The world with more requests recorded. *)
Definition logs_w (urls : list string) (w : World) : World :=
  {| email := email w; loading := loading w; result := result w; error := error w;
     fetched := fetched w ++ urls; clock := clock w |}.

(** The first answer whose data contains a marker, in the order of the
    answers. *)
Definition first_match (marker : string) (records : list RawAnswer)
  : option RawAnswer :=
  find (fun record => JS.includes (data record) marker) records.

(** The invariant of a record evaluation in the data model: a missing
    record has no record text, a status other than valid comes with an
    issue, and a valid one has none. *)
Definition evaluation_invariant (ev : RecordEvaluation) : Prop :=
  (status ev = missing -> record ev = None) /\
  (In (status ev) [warning; missing; invalid] -> issues ev <> []) /\
  (status ev = valid -> issues ev = []).

(** Two reports that agree on every field but the timestamp. *)
Definition same_but_timestamp (r1 r2 : Report.t) : Prop :=
  Report.email r1 = Report.email r2 /\
  Report.domain r1 = Report.domain r2 /\
  Report.overall_status r1 = Report.overall_status r2 /\
  Report.spf r1 = Report.spf r2 /\
  Report.dmarc r1 = Report.dmarc r2 /\
  Report.dkim r1 = Report.dkim r2.

(** Two outcomes of a check that agree up to the timestamp: the same error
    message, and both without a report or with reports that agree. *)
Definition same_outcome (w1 w2 : World) : Prop :=
  error w1 = error w2 /\
  match result w1, result w2 with
  | Some r1, Some r2 => same_but_timestamp r1 r2
  | None, None => True
  | _, _ => False
  end.

(** A check that was refused: an error message is shown, there is no
    report, and no request was made. *)
Definition rejected_before_query (before after : World) : Prop :=
  error after <> EmptyString /\ result after = None /\
  fetched after = fetched before.

(** What follows the first occurrence of a character, if it occurs. *)
Fixpoint after_first (c : ascii) (s : string) : option string :=
  match s with
  | EmptyString => None
  | String x s' => if Ascii.eqb x c then Some s' else after_first c s'
  end.

(** The statement of the data model read literally, for comparison with
    [JS.replace_g]: only the quote characters at the two ends of the text
    are removed. *)
Fixpoint strip_leading (c : ascii) (s : string) : string :=
  match s with
  | EmptyString => EmptyString
  | String x s' => if Ascii.eqb x c then strip_leading c s' else s
  end.

Definition rev_string (s : string) : string :=
  string_of_list_ascii (rev (list_ascii_of_string s)).

Definition strip_surrounding_quotes (s : string) : string :=
  rev_string (strip_leading JS.dquote (rev_string (strip_leading JS.dquote s))).

(** The URLs a check of a domain requests, in order. *)
Definition check_urls (dns : Resolver) (domain : string) : list string :=
  resolveUrl domain "TXT" ::
  resolveUrl ("_dmarc." ++ domain)%string "TXT" ::
  dkim_urls dns domain dkimSelectors.

(** The report of a check, as a function of the resolver's answers, the
    email, the derived domain and the instant of construction. *)
Definition report_for (dns : Resolver) (email domain now : string) : Report.t :=
  let spf := spf_evaluation (answers dns (resolveUrl domain "TXT")) in
  let dmarc :=
    dmarc_evaluation (answers dns (resolveUrl ("_dmarc." ++ domain)%string "TXT")) in
  let dkim := match find (has_answer dns domain) dkimSelectors with
              | Some selector => dkim_found selector
              | None => dkim_missing
              end in
  {| Report.email := email;
     Report.domain := domain;
     Report.overall_status := overallStatus (status spf) (status dmarc) (status dkim);
     Report.spf := spf;
     Report.dmarc := dmarc;
     Report.dkim := dkim;
     Report.timestamp := now |}.

(** At least two of three statuses are a given one. *)
Definition two_of (x a b c : RecordStatus) : Prop :=
  (a = x /\ b = x) \/ (a = x /\ c = x) \/ (b = x /\ c = x).

(** A request that fails in transport: the network fails, the body is not
    JSON, or the body has no [Answer] field. *)
Definition transport_failure (o : FetchOutcome) : Prop :=
  o = FetchRejects \/ o = JsonRejects \/ o = Body None.

(** The resolver that answers one URL with the empty answer set and every
    other URL as before. *)
Definition absent_at (url : string) (dns : Resolver) : Resolver :=
  fun u => if String.eqb u url then Body (Some []) else dns u.

(** TXT data of two character-strings, each presented between quotes:
    quote, [v=spf1 a], quote, space, quote, [-all], quote. *)
Definition two_strings_data : string :=
  String JS.dquote
    ("v=spf1 a" ++ String JS.dquote
       (" " ++ String JS.dquote ("-all" ++ String JS.dquote EmptyString)))%string.

(** The evaluations with their fields spelled out. *)
Definition spf_missing : RecordEvaluation :=
  {| type := "SPF"; status := missing; record := None;
     issues := ["No SPF record found"];
     recommendations := ["Add an SPF record to your DNS";
                         "Example: v=spf1 include:_spf.google.com ~all"] |}.

Definition spf_warning (spfRecord : string) : RecordEvaluation :=
  {| type := "SPF"; status := warning; record := Some spfRecord;
     issues := ["SPF record should end with an 'all' mechanism"];
     recommendations := ["Add ~all (softfail) or -all (hardfail) at the end"] |}.

Definition spf_valid (spfRecord : string) : RecordEvaluation :=
  {| type := "SPF"; status := valid; record := Some spfRecord;
     issues := []; recommendations := [] |}.

Definition dmarc_missing : RecordEvaluation :=
  {| type := "DMARC"; status := missing; record := None;
     issues := ["No DMARC record found"];
     recommendations :=
       ["Add a DMARC record to your DNS";
        "Example: v=DMARC1; p=quarantine; rua=mailto:dmarc@yourdomain.com"] |}.

Definition dmarc_warning (dmarcRecord : string) : RecordEvaluation :=
  {| type := "DMARC"; status := warning; record := Some dmarcRecord;
     issues := ["DMARC policy is set to 'none' - emails won't be protected"];
     recommendations := ["Consider upgrading to p=quarantine or p=reject"] |}.

Definition dmarc_valid (dmarcRecord : string) : RecordEvaluation :=
  {| type := "DMARC"; status := valid; record := Some dmarcRecord;
     issues := []; recommendations := [] |}.

(** The text of an answer with every quote character removed. *)
Definition unquoted (first : RawAnswer) : string :=
  JS.replace_g (data first) JS.dquote EmptyString.

(** A text with its quote characters left out: the other characters, in
    their order. *)
Definition without_quotes (d : string) : string :=
  string_of_list_ascii
    (filter (fun x => negb (Ascii.eqb x JS.dquote)) (list_ascii_of_string d)).

(** The two-string SPF answer set and the answer of the subdomain-policy
    example. *)
Definition two_strings_answers : list RawAnswer :=
  [{| name := "example.com"; data := two_strings_data |}].

Definition sp_none_answer : RawAnswer :=
  {| name := "_dmarc.example.com"; data := "v=DMARC1; p=reject; sp=none" |}.

(** A page that has just been loaded, with an email typed in. *)
Definition fresh (e : string) : World :=
  {| email := e; loading := false; result := None; error := EmptyString;
     fetched := []; clock := "2024-01-01T00:00:00.000Z" |}.

(** A resolver with no record at any name: every body lacks [Answer]. *)
Definition no_records : Resolver := fun _ => Body None.

(** A resolver with one TXT answer at the selectors [default] and
    [google] of [example.com] and nothing elsewhere. *)
Definition default_and_google : Resolver :=
  fun url =>
    if String.eqb url (selectorUrl "example.com" "default")
    then Body (Some [{| name := "default._domainkey.example.com"; data := "v=DKIM1; p=abc" |}])
    else if String.eqb url (selectorUrl "example.com" "google")
    then Body (Some [{| name := "google._domainkey.example.com"; data := "v=DKIM1; p=xyz" |}])
    else Body None.

(** A resolver whose network is down. *)
Definition network_down : Resolver := fun _ => FetchRejects.

(** A page that still shows the outcome of an earlier check, at a later
    instant. *)
Definition stale_page (e : string) : World :=
  {| email := e; loading := true;
     result := Some (report_for no_records "old@old.example" "old.example"
                                "2023-12-31T23:59:59.000Z");
     error := "stale";
     fetched := ["https://dns.google/resolve?name=old.example&type=TXT"];
     clock := "2025-06-30T12:00:00.000Z" |}.

(** ** Rendering: [RecordCard], [getOverallStatusConfig] and the page

    The markup is modelled by its parts that depend on the props or on the
    state: class names built from template literals, texts, and the blocks
    that are rendered under a condition ([None] when the condition is
    falsy).  Static markup is left out. *)

(** A [span] element: its class and its text. *)
Record Span := { className : string; text : string }.

(** [getStatusColor] of [RecordCard] (lines 36-44). *)
Definition getStatusColor (status : string) : string :=
  if String.eqb status "valid" then "bg-green-50 border-green-200"
  else if String.eqb status "warning" then "bg-yellow-50 border-yellow-200"
  else if String.eqb status "missing" || String.eqb status "invalid"
       then "bg-red-50 border-red-200"
  else "bg-gray-50 border-gray-200".

(** [getStatusIcon] of [RecordCard] (lines 46-54). *)
Definition getStatusIcon (status : string) : Span :=
  if String.eqb status "valid" then {| className := "text-green-600"; text := "✓" |}
  else if String.eqb status "warning"
       then {| className := "text-yellow-600"; text := "⚠" |}
  else if String.eqb status "missing" || String.eqb status "invalid"
       then {| className := "text-red-600"; text := "✗" |}
  else {| className := "text-gray-600"; text := "?" |}.

(** The class of the status badge (lines 63-67). *)
Definition badgeClassName (status : string) : string :=
  ("px-3 py-1 rounded-full text-sm font-medium " ++
   (if String.eqb status "valid" then "bg-green-100 text-green-800"
    else if String.eqb status "warning" then "bg-yellow-100 text-yellow-800"
    else "bg-red-100 text-red-800"))%string.

(** What [RecordCard] renders: the class of the card, the icon and the
    title of the heading, the badge, and the three optional blocks. *)
Record Card := {
  card_className : string;
  card_icon : Span;
  card_title : string;
  badge_className : string;
  badge_text : string;
  record_block : option string;
  issues_block : option (list string);
  recommendations_block : option (list string)
}.

(** [RecordCard] (lines 35-104); [evaluation] is the prop [record] with its
    status as the string the source stores. *)
Definition RecordCard (evaluation : RecordEvaluation) (type : string) : Card :=
  let status := status_string (status evaluation) in
  {| card_className :=
       ("p-4 rounded-lg border-2 " ++ getStatusColor status ++
        " transition-all duration-300")%string;
     card_icon := getStatusIcon status;
     card_title := type;
     badge_className := badgeClassName status;
     badge_text := status;
     record_block :=                       (* [record.record && ...] *)
       match record evaluation with
       | Some (String c rest) => Some (String c rest)
       | _ => None
       end;
     issues_block :=                       (* [issues && issues.length > 0 && ...] *)
       if 0 <? length (issues evaluation) then Some (issues evaluation) else None;
     recommendations_block :=
       if 0 <? length (recommendations evaluation)
       then Some (recommendations evaluation) else None |}.

(** The image components (lines 5-33) and the placeholder of the default
    case of [getOverallStatusConfig]. *)
Inductive Image :=
| Img (src alt : string)
| GrayCircle.

Definition SuccessImage : Image :=
  Img "https://images.pexels.com/photos/18148286/pexels-photo-18148286.jpeg"
      "Success - Thumbs Up".
Definition ErrorImage : Image :=
  Img "https://images.pexels.com/photos/3747139/pexels-photo-3747139.jpeg"
      "Error - Technical Issue".
Definition WarningImage : Image :=
  Img "https://images.pexels.com/photos/9211268/pexels-photo-9211268.jpeg"
      "Warning - Needs Attention".

Record StatusConfig := {
  title : string;
  subtitle : string;
  bgColor : string;
  borderColor : string;
  textColor : string;
  image : Image
}.

(** [getOverallStatusConfig] (lines 257-296). *)
Definition getOverallStatusConfig (status : string) : StatusConfig :=
  if String.eqb status "pass" then
    {| title := "Great! Your DNS is properly configured! 🎉";
       subtitle := "Your email authentication is set up correctly";
       bgColor := "bg-green-50"; borderColor := "border-green-200";
       textColor := "text-green-800"; image := SuccessImage |}
  else if String.eqb status "warning" then
    {| title := "Your DNS setup needs some attention ⚠️";
       subtitle := "Some records could be improved for better email deliverability";
       bgColor := "bg-yellow-50"; borderColor := "border-yellow-200";
       textColor := "text-yellow-800"; image := WarningImage |}
  else if String.eqb status "fail" then
    {| title := "Your DNS setup has critical issues ❌";
       subtitle := "Important email authentication records are missing or invalid";
       bgColor := "bg-red-50"; borderColor := "border-red-200";
       textColor := "text-red-800"; image := ErrorImage |}
  else
    {| title := "DNS Check Complete";
       subtitle := "Review the results below";
       bgColor := "bg-gray-50"; borderColor := "border-gray-200";
       textColor := "text-gray-800"; image := GrayCircle |}.

(** The results block of the page (lines 360-395). *)
Record Results := {
  banner_className : string;
  banner_image : Image;
  banner_title_className : string;
  banner_title : string;
  banner_subtitle_className : string;
  banner_subtitle : string;
  banner_domain : string;
  cards : list Card
}.

(** The parts of the page that depend on the state (lines 298-413). *)
Record Page := {
  input_value : string;
  button_disabled : bool;
  button_backgroundColor : string;
  button_label : string;
  error_block : option string;
  results_block : option Results
}.

(** The value [App] returns for the state of a world. *)
Definition render (w : World) : Page :=
  {| input_value := email w;
     button_disabled := loading w;
     button_backgroundColor := if loading w then "#9CA3AF" else "#4A90E2";
     button_label := if loading w then "Checking DNS Records..." else "Check DNS Setup";
     error_block :=                        (* [error && ...] *)
       match error w with
       | EmptyString => None
       | String c rest => Some (String c rest)
       end;
     results_block :=                      (* [result && ...] *)
       match result w with
       | None => None
       | Some r =>
           let config := getOverallStatusConfig (overall_string (Report.overall_status r)) in
           Some {| banner_className :=
                     ("rounded-lg border-2 p-6 text-center " ++ bgColor config ++
                      " " ++ borderColor config)%string;
                   banner_image := image config;
                   banner_title_className :=
                     ("text-2xl font-bold " ++ textColor config)%string;
                   banner_title := title config;
                   banner_subtitle_className :=
                     ("text-lg " ++ textColor config ++ " opacity-80")%string;
                   banner_subtitle := subtitle config;
                   banner_domain := Report.domain r;
                   cards := [RecordCard (Report.spf r) "SPF Record";
                             RecordCard (Report.dmarc r) "DMARC Record";
                             RecordCard (Report.dkim r) "DKIM Record"] |}
       end |}.

(** ** Vocabulary of the further statements *)

(** The domain [handleCheck] derives from an email: the second piece of
    the split at [@], in lower case; [None] when there is no second
    piece. *)
Definition domain_of (e : string) : option string :=
  option_map JS.toLowerCase (nth_error (JS.split e "@") 1).

(** An upper-case ASCII letter. *)
Definition is_upper (c : ascii) : bool :=
  (65 <=? nat_of_ascii c) && (nat_of_ascii c <=? 90).

(** How good a status is: missing below warning and invalid, these below
    valid; and the same for the overall status. *)
Definition status_rank (s : RecordStatus) : nat :=
  match s with missing => 0 | warning => 1 | invalid => 1 | valid => 2 end.

Definition overall_rank (o : OverallStatus) : nat :=
  match o with fail => 0 | warn => 1 | pass => 2 end.

(** The evaluation of the selector search, as a function of the
    answers. *)
Definition dkim_evaluation (dns : Resolver) (domain : string) : RecordEvaluation :=
  match find (has_answer dns domain) dkimSelectors with
  | Some selector => dkim_found selector
  | None => dkim_missing
  end.

(** Two SPF answers that disagree, and an SPF answer whose only
    occurrence of [-all] is inside a host name. *)
Definition conflicting_spf : list RawAnswer :=
  [{| name := "example.com"; data := "google-site-verification=abc" |};
   {| name := "example.com"; data := "v=spf1 -all" |};
   {| name := "example.com"; data := "v=spf1 include:_spf.example.net" |}].

Definition all_in_host_name : RawAnswer :=
  {| name := "example.com"; data := "v=spf1 include:mail-all.example.net" |}.

(** The evaluations the three evaluators can produce with a resolver. *)
Inductive produced (dns : Resolver) : RecordEvaluation -> Prop :=
| produced_spf (txtRecords : list RawAnswer) :
    produced dns (spf_evaluation txtRecords)
| produced_dmarc (dmarcRecords : list RawAnswer) :
    produced dns (dmarc_evaluation dmarcRecords)
| produced_dkim (domain : string) (w : World) (dkim : RecordEvaluation) :
    fst (dkim_loop dns domain dkimSelectors dkim_missing w) = Normal dkim ->
    produced dns dkim.

(** ** Response bodies of any shape

    [Resolver] above types a parsed body as one whose [Answer] is absent
    or an array of objects with string [data].  The source does not check
    this: [checkDNS] returns any truthy [data.Answer] as it is.  This part
    embeds the same code over bodies of any shape, classified by what the
    code observes of them. *)

(** An element of an [Answer] array, by its [data] property:
    - [StringData d]: an object whose [data] is the string [d];
    - [ArrayData strings]: an object whose [data] is an array, of which
      [strings] are the members that are strings ([Array.prototype.includes]
      finds a string marker among these only; an array has no [replace]);
    - [OtherElement]: any other element ([null], a number, a string, an
      array, an object whose [data] is absent, [null], a number, a boolean
      or an object): [record.data.includes(...)] throws a [TypeError]. *)
Inductive Element :=
| StringData (d : string)
| ArrayData (strings : list string)
| OtherElement.

(** A truthy [data.Answer]:
    - [AnArray elements]: an array;
    - [NoArray lengthPositive]: [true], a number other than zero, a string
      that is not empty or an object; it has no [filter] method, and
      [lengthPositive] is the value of [.length > 0] on it. *)
Inductive AnswerValue :=
| AnArray (elements : list Element)
| NoArray (lengthPositive : bool).

(** What [response.json()] resolves to:
    - [NullBody]: [null], on which [data.Answer] throws;
    - [NoAnswerField]: any other value whose [Answer] is absent or falsy;
    - [AnswerField v]: an object whose [Answer] is the truthy [v]. *)
Inductive Parsed :=
| NullBody
| NoAnswerField
| AnswerField (v : AnswerValue).

Inductive RawOutcome :=
| RawFetchRejects
| RawJsonRejects
| RawBody (data : Parsed).

Definition RawResolver := string -> RawOutcome.

Section RawEvaluator.

Variable raw : RawResolver.

(** [await fetch(url)] *)
Definition fetch_raw (url : string) : Js (option Parsed) :=
  fun w => match raw url with
           | RawFetchRejects => (Throw NetworkError, log_w url w)
           | RawJsonRejects => (Normal None, log_w url w)
           | RawBody data => (Normal (Some data), log_w url w)
           end.

(** [await response.json()] *)
Definition json_raw (response : option Parsed) : Js Parsed :=
  match response with
  | Some data => ret data
  | None => throw SyntaxError
  end.

(** [data.Answer || []] *)
Definition answer_or_empty (data : Parsed) : Js AnswerValue :=
  match data with
  | NullBody => throw TypeError
  | NoAnswerField => ret (AnArray [])
  | AnswerField v => ret v
  end.

(** [checkDNS] (lines 113-121). *)
Definition checkDNS_raw (domain recordType : string) : Js AnswerValue :=
  try_catch
    (response <- fetch_raw (resolveUrl domain recordType) ;;
     data <- json_raw response ;;
     answer_or_empty data)
    (fun _ => ret (AnArray [])).

(** [record.data.includes(marker)] *)
Definition data_includes (record : Element) (marker : string) : Js bool :=
  match record with
  | StringData d => ret (JS.includes d marker)
  | ArrayData strings => ret (existsb (String.eqb marker) strings)
  | OtherElement => throw TypeError
  end.

(** [elements.filter(record => record.data.includes(marker))]: the
    callback runs on every element, in order. *)
Fixpoint filter_elements (elements : list Element) (marker : string)
  : Js (list Element) :=
  match elements with
  | [] => ret []
  | record :: rest =>
      keep <- data_includes record marker ;;
      kept <- filter_elements rest marker ;;
      ret (if keep then record :: kept else kept)
  end.

(** [records.filter(record => record.data.includes(marker))] on what
    [checkDNS] returned. *)
Definition filter_answers (records : AnswerValue) (marker : string)
  : Js (list Element) :=
  match records with
  | AnArray elements => filter_elements elements marker
  | NoArray _ => throw TypeError      (* [filter] is not a function *)
  end.

(** [record.data.replace(...)] with the quote pattern and the empty
    replacement. *)
Definition data_unquoted (record : Element) : Js string :=
  match record with
  | StringData d => ret (JS.replace_g d JS.dquote "")
  | ArrayData _ => throw TypeError    (* [replace] is not a function *)
  | OtherElement => throw TypeError
  end.

(** Lines 140-166, on the filtered elements. *)
Definition spf_of (spfRecords : list Element) : Js RecordEvaluation :=
  match spfRecords with
  | [] =>
      ret {| type := "SPF"; status := missing; record := None;
             issues := ["No SPF record found"];
             recommendations := ["Add an SPF record to your DNS";
                                 "Example: v=spf1 include:_spf.google.com ~all"] |}
  | first :: _ =>
      spfRecord <- data_unquoted first ;;
      let '(issues, recommendations) :=
        if negb (JS.includes spfRecord "~all") && negb (JS.includes spfRecord "-all")
        then ([] ++ ["SPF record should end with an 'all' mechanism"],
              [] ++ ["Add ~all (softfail) or -all (hardfail) at the end"])
        else ([], []) in
      ret {| type := "SPF";
             status := if length issues =? 0 then valid else warning;
             record := Some spfRecord;
             issues := issues;
             recommendations := recommendations |}
  end.

(** Lines 174-200, on the filtered elements. *)
Definition dmarc_of (dmarcFound : list Element) : Js RecordEvaluation :=
  match dmarcFound with
  | [] =>
      ret {| type := "DMARC"; status := missing; record := None;
             issues := ["No DMARC record found"];
             recommendations :=
               ["Add a DMARC record to your DNS";
                "Example: v=DMARC1; p=quarantine; rua=mailto:dmarc@yourdomain.com"] |}
  | first :: _ =>
      dmarcRecord <- data_unquoted first ;;
      let '(issues, recommendations) :=
        if JS.includes dmarcRecord "p=none"
        then ([] ++ ["DMARC policy is set to 'none' - emails won't be protected"],
              [] ++ ["Consider upgrading to p=quarantine or p=reject"])
        else ([], []) in
      ret {| type := "DMARC";
             status := if length issues =? 0 then valid else warning;
             record := Some dmarcRecord;
             issues := issues;
             recommendations := recommendations |}
  end.

(** [dkimRecords.length > 0] *)
Definition length_positive (records : AnswerValue) : bool :=
  match records with
  | AnArray elements => 0 <? length elements
  | NoArray lengthPositive => lengthPositive
  end.

(** The [for ... of] loop of lines 212-224. *)
Fixpoint dkim_loop_raw (domain : string) (selectors : list string)
         (dkim : RecordEvaluation) : Js RecordEvaluation :=
  match selectors with
  | [] => ret dkim
  | selector :: rest =>
      dkimRecords <- checkDNS_raw (selector ++ "._domainkey." ++ domain)%string "TXT" ;;
      if length_positive dkimRecords then ret (dkim_found selector)
      else dkim_loop_raw domain rest dkim
  end.

(** The body of the [try] block (lines 132-248). *)
Definition handleCheck_body_raw (email : string) : Js unit :=
  domain <- match nth_error (JS.split email "@") 1 with
            | Some part => ret (JS.toLowerCase part)
            | None => throw TypeError
            end ;;
  txtRecords <- checkDNS_raw domain "TXT" ;;
  spfRecords <- filter_answers txtRecords "v=spf1" ;;
  spf <- spf_of spfRecords ;;
  dmarcRecords <- checkDNS_raw ("_dmarc." ++ domain)%string "TXT" ;;
  dmarcFound <- filter_answers dmarcRecords "v=DMARC1" ;;
  dmarc <- dmarc_of dmarcFound ;;
  dkim <- dkim_loop_raw domain dkimSelectors dkim_missing ;;
  let overall := overallStatus (status spf) (status dmarc) (status dkim) in
  now <- newDateISO ;;
  setResult (Some {| Report.email := email;
                     Report.domain := domain;
                     Report.overall_status := overall;
                     Report.spf := spf;
                     Report.dmarc := dmarc;
                     Report.dkim := dkim;
                     Report.timestamp := now |}).

(** [handleCheck] (lines 123-255). *)
Definition handleCheck_raw : Js unit :=
  email <- getEmail ;;
  if (email =? "")%string then ret tt
  else
    setLoading true ;;;
    setError "" ;;;
    setResult None ;;;
    try_finally
      (try_catch (handleCheck_body_raw email)
                 (fun _ => setError generic_error))
      (setLoading false).

Definition after_check_raw (w : World) : World := snd (handleCheck_raw w).

End RawEvaluator.

(** ** Vocabulary of the statements on bodies of any shape *)

(** What [checkDNS] returns for a URL. *)
Definition returned (raw : RawResolver) (url : string) : AnswerValue :=
  match raw url with
  | RawBody (AnswerField v) => v
  | _ => AnArray []
  end.

(** A request that fails in transport: the network fails, the body is not
    JSON, or the parsed body is [null] or has no truthy [Answer]. *)
Definition transport_failure_raw (o : RawOutcome) : Prop :=
  o = RawFetchRejects \/ o = RawJsonRejects \/
  o = RawBody NullBody \/ o = RawBody NoAnswerField.

(** The resolver that answers one URL with an empty [Answer] array and
    every other URL as before. *)
Definition absent_at_raw (url : string) (raw : RawResolver) : RawResolver :=
  fun u => if String.eqb u url then RawBody (AnswerField (AnArray [])) else raw u.

(** An element the typed resolver can hold, and an outcome all of whose
    elements are such. *)
Definition is_string_data (e : Element) : bool :=
  match e with StringData _ => true | _ => false end.

Definition well_shaped_outcome (o : RawOutcome) : bool :=
  match o with
  | RawBody (AnswerField (AnArray elements)) => forallb is_string_data elements
  | RawBody (AnswerField (NoArray _)) => false
  | _ => true
  end.

(** A resolver all of whose parsed bodies have the shape [Resolver]
    assumes. *)
Definition well_shaped (raw : RawResolver) : Prop :=
  forall url, well_shaped_outcome (raw url) = true.

(** An answer value with an element or a shape on which the filter of the
    SPF and DMARC evaluations throws. *)
Definition filter_throws (v : AnswerValue) : bool :=
  match v with
  | AnArray elements =>
      existsb (fun e => match e with OtherElement => true | _ => false end) elements
  | NoArray _ => true
  end.

(** The typed resolver in a resolver of any shape, and back. *)
Definition embed (dns : Resolver) : RawResolver :=
  fun url =>
    match dns url with
    | FetchRejects => RawFetchRejects
    | JsonRejects => RawJsonRejects
    | Body None => RawBody NoAnswerField
    | Body (Some records) =>
        RawBody (AnswerField (AnArray (map (fun r => StringData (data r)) records)))
    end.

Definition typed_elements (elements : list Element) : list RawAnswer :=
  flat_map (fun e => match e with
                     | StringData d => [{| name := EmptyString; data := d |}]
                     | _ => []
                     end) elements.

Definition typed_of (raw : RawResolver) : Resolver :=
  fun url =>
    match raw url with
    | RawFetchRejects => FetchRejects
    | RawJsonRejects => JsonRejects
    | RawBody (AnswerField (AnArray elements)) => Body (Some (typed_elements elements))
    | RawBody _ => Body None
    end.

(** A text of ASCII characters only, on which [JS.toLowerCase] is the
    [toLowerCase] of the runtime. *)
Definition ascii_only (s : string) : bool :=
  forallb (fun c => nat_of_ascii c <? 128) (list_ascii_of_string s).

(** A resolver whose body for the TXT records of [example.com] has an
    [Answer] array with one element without [data], and no record
    elsewhere. *)
Definition answer_without_data : RawResolver :=
  fun url =>
    if String.eqb url (resolveUrl "example.com" "TXT")
    then RawBody (AnswerField (AnArray [OtherElement]))
    else RawBody NoAnswerField.

(** The same resolver with one SPF record before the element without
    [data]. *)
Definition spf_then_no_data : RawResolver :=
  fun url =>
    if String.eqb url (resolveUrl "example.com" "TXT")
    then RawBody (AnswerField (AnArray [StringData "v=spf1 -all"; OtherElement]))
    else RawBody NoAnswerField.

(** The element of a typed answer, and a resolver of any shape that
    returns what a typed resolver answers. *)
Definition element_of (r : RawAnswer) : Element := StringData (data r).

Definition agrees (raw : RawResolver) (dns : Resolver) : Prop :=
  forall url, returned raw url = AnArray (map element_of (answers dns url)).

(** A resolver of any shape whose network is down. *)
Definition network_down_raw : RawResolver := fun _ => RawFetchRejects.

(** The world after a check that threw after its first request. *)
Definition failed_after_first (w : World) (d : string) : World :=
  {| email := email w; loading := false; result := None;
     error := generic_error;
     fetched := fetched w ++ [resolveUrl d "TXT"];
     clock := clock w |}.

(** A request whose body was parsed. *)
Definition raw_outcome_is_parsed (raw : RawResolver) (url : string) : bool :=
  match raw url with RawBody _ => true | _ => false end.

(** * Properties *)

(** ** Strings *)

Section StringFacts.

Local Open Scope string_scope.

Lemma prefix_app (p b : string) : prefix p (p ++ b) = true.
Proof.
  induction p as [|c p IH]; simpl.
  - now destruct b.
  - destruct (ascii_dec c c) as [_|ne]; [exact IH | now elim ne].
Qed.

Lemma prefix_split (p s : string) :
  prefix p s = true -> exists b, s = p ++ b.
Proof.
  revert s; induction p as [|c p IH]; intros s H.
  - now exists s.
  - destruct s as [|d s]; simpl in H; [discriminate|].
    destruct (ascii_dec c d) as [->|]; [|discriminate].
    destruct (IH _ H) as [b ->]. now exists b.
Qed.

Lemma includes_unfold (s pat : string) :
  JS.includes s pat =
  if prefix pat s then true
  else match s with
       | EmptyString => false
       | String _ s' => JS.includes s' pat
       end.
Proof. now destruct s. Qed.

Lemma includes_app (a pat b : string) :
  JS.includes (a ++ pat ++ b) pat = true.
Proof.
  induction a as [|c a IH]; rewrite includes_unfold.
  - simpl. now rewrite prefix_app.
  - change (String c a ++ pat ++ b) with (String c (a ++ pat ++ b)).
    destruct (prefix pat (String c (a ++ pat ++ b))); [reflexivity | exact IH].
Qed.

Lemma includes_split (s pat : string) :
  JS.includes s pat = true -> exists a b, s = a ++ pat ++ b.
Proof.
  induction s as [|c s IH]; rewrite includes_unfold; intros H.
  - destruct (prefix pat "") eqn:P; [|discriminate].
    destruct (prefix_split _ _ P) as [b E]. now exists "", b.
  - destruct (prefix pat (String c s)) eqn:P.
    + destruct (prefix_split _ _ P) as [b E]. now exists "", b.
    + destruct (IH H) as (a & b & ->). now exists (String c a), b.
Qed.

(** [includes] is the substring relation. *)
Lemma includes_spec (s pat : string) :
  JS.includes s pat = true <-> exists a b, s = a ++ pat ++ b.
Proof.
  split; [apply includes_split|].
  intros (a & b & ->). apply includes_app.
Qed.

Lemma replace_g_app (a b : string) (c : ascii) :
  JS.replace_g (a ++ b) c "" = JS.replace_g a c "" ++ JS.replace_g b c "".
Proof.
  induction a as [|x a IH]; simpl; [reflexivity|].
  destruct (Ascii.eqb x c); simpl; now rewrite IH.
Qed.

Lemma replace_g_free (s : string) (c : ascii) :
  free_of c s = true -> JS.replace_g s c "" = s.
Proof.
  induction s as [|x s IH]; simpl; [reflexivity|].
  destruct (Ascii.eqb x c); simpl; [discriminate|].
  intros H. now rewrite IH.
Qed.

Lemma replace_g_is_free (s : string) (c : ascii) :
  free_of c (JS.replace_g s c "") = true.
Proof.
  induction s as [|x s IH]; simpl; [reflexivity|].
  destruct (Ascii.eqb x c) eqn:E; simpl; [exact IH|].
  now rewrite E, IH.
Qed.

(** Removing a character keeps every substring it does not occur in. *)
Lemma includes_replace_g (s pat : string) (c : ascii) :
  free_of c pat = true ->
  JS.includes s pat = true ->
  JS.includes (JS.replace_g s c "") pat = true.
Proof.
  intros F H. apply includes_split in H. destruct H as (a & b & ->).
  rewrite !replace_g_app, (replace_g_free pat c F).
  apply includes_app.
Qed.

(** [replace_g] with the empty replacement keeps exactly the other
    characters, in their order. *)
Lemma replace_g_filter (s : string) (c : ascii) :
  list_ascii_of_string (JS.replace_g s c "") =
  filter (fun x => negb (Ascii.eqb x c)) (list_ascii_of_string s).
Proof.
  induction s as [|x s IH]; simpl; [reflexivity|].
  destruct (Ascii.eqb x c); simpl; now rewrite IH.
Qed.

End StringFacts.

(** ** Runs of the monadic code *)

Section Runs.

Variable dns : Resolver.

Lemma logs_w_nil (w : World) : logs_w [] w = w.
Proof. destruct w; unfold logs_w; simpl. now rewrite app_nil_r. Qed.

Lemma logs_w_app (a b : list string) (w : World) :
  logs_w b (logs_w a w) = logs_w (a ++ b) w.
Proof. unfold logs_w; simpl. now rewrite app_assoc. Qed.

(** [checkDNS] never throws: it records the request and returns the
    answers of the URL. *)
Lemma checkDNS_run (domain recordType : string) (w : World) :
  checkDNS dns domain recordType w =
  (Normal (answers dns (resolveUrl domain recordType)),
   logs_w [resolveUrl domain recordType] w).
Proof.
  unfold checkDNS, try_catch, bind, fetch, json, answers, ret, throw.
  destruct (dns (resolveUrl domain recordType)) as [| |[a|]]; reflexivity.
Qed.

(** The selector loop returns the evaluation of the first selector with an
    answer, or the evaluation it was started with. *)
Lemma dkim_loop_run (domain : string) (selectors : list string)
      (dkim : RecordEvaluation) (w : World) :
  dkim_loop dns domain selectors dkim w =
  (Normal (match find (has_answer dns domain) selectors with
           | Some selector => dkim_found selector
           | None => dkim
           end),
   logs_w (dkim_urls dns domain selectors) w).
Proof.
  revert w; induction selectors as [|selector rest IH]; intros w.
  - simpl. now rewrite logs_w_nil.
  - cbn [dkim_loop find dkim_urls]. unfold bind at 1.
    rewrite checkDNS_run. fold (selectorUrl domain selector).
    fold (has_answer dns domain selector).
    destruct (has_answer dns domain selector).
    + reflexivity.
    + rewrite IH, logs_w_app. reflexivity.
Qed.

(** The [try] block of a check whose email has a second piece. *)
Lemma handleCheck_body_run (e part : string) (w : World) :
  nth_error (JS.split e "@") 1 = Some part ->
  handleCheck_body dns e w =
  (Normal tt,
   setResult_w (Some (report_for dns e (JS.toLowerCase part) (clock w)))
               (logs_w (check_urls dns (JS.toLowerCase part)) w)).
Proof.
  intros H. unfold handleCheck_body. rewrite H.
  unfold bind, ret. rewrite checkDNS_run.
  rewrite checkDNS_run. rewrite dkim_loop_run.
  unfold newDateISO, setResult, report_for, check_urls.
  rewrite !logs_w_app. reflexivity.
Qed.

(** The [try] block of a check whose email has no second piece: the
    call of [toLowerCase] on [undefined] throws before any request. *)
Lemma handleCheck_body_throws (e : string) (w : World) :
  nth_error (JS.split e "@") 1 = None ->
  handleCheck_body dns e w = (Throw TypeError, w).
Proof. intros H. unfold handleCheck_body. now rewrite H. Qed.

Lemma handleCheck_empty (w : World) :
  email w = EmptyString -> after_check dns w = w.
Proof.
  intros H. unfold after_check, handleCheck, bind, getEmail.
  now rewrite H.
Qed.

Lemma handleCheck_accepts (part : string) (w : World) :
  email w <> EmptyString ->
  nth_error (JS.split (email w) "@") 1 = Some part ->
  after_check dns w =
  {| email := email w; loading := false;
     result := Some (report_for dns (email w) (JS.toLowerCase part) (clock w));
     error := EmptyString;
     fetched := fetched w ++ check_urls dns (JS.toLowerCase part);
     clock := clock w |}.
Proof.
  intros Hne H. unfold after_check, handleCheck, bind, getEmail.
  destruct (String.eqb_spec (email w) "") as [E|_]; [contradiction|].
  unfold try_finally, try_catch, setLoading, setError, setResult.
  rewrite handleCheck_body_run with (part := part) by exact H.
  reflexivity.
Qed.

Lemma handleCheck_rejects (w : World) :
  email w <> EmptyString ->
  nth_error (JS.split (email w) "@") 1 = None ->
  after_check dns w =
  {| email := email w; loading := false; result := None;
     error := generic_error; fetched := fetched w; clock := clock w |}.
Proof.
  intros Hne H. unfold after_check, handleCheck, bind, getEmail.
  destruct (String.eqb_spec (email w) "") as [E|_]; [contradiction|].
  unfold try_finally, try_catch, setLoading, setError, setResult.
  rewrite handleCheck_body_throws by exact H.
  reflexivity.
Qed.

End Runs.

(** ** The SPF and DMARC classifications *)

Lemma find_hd_filter {A} (f : A -> bool) (l : list A) :
  find f l = hd_error (filter f l).
Proof.
  induction l as [|x l IH]; simpl; [reflexivity|].
  now destruct (f x).
Qed.

Lemma first_match_none (marker : string) (records : list RawAnswer) :
  first_match marker records = None <->
  (forall r, In r records -> JS.includes (data r) marker = false).
Proof.
  unfold first_match. split.
  - intros H r Hin. exact (find_none _ _ H r Hin).
  - intros H. induction records as [|x l IH]; simpl; [reflexivity|].
    rewrite (H x (or_introl eq_refl)). apply IH.
    intros r Hin. apply H. now right.
Qed.

Lemma spf_evaluation_none (txtRecords : list RawAnswer) :
  first_match "v=spf1" txtRecords = None ->
  spf_evaluation txtRecords = spf_missing.
Proof.
  unfold first_match, spf_evaluation. rewrite find_hd_filter.
  destruct (filter _ txtRecords); [reflexivity | discriminate].
Qed.

Lemma spf_evaluation_some (txtRecords : list RawAnswer) (first : RawAnswer) :
  first_match "v=spf1" txtRecords = Some first ->
  spf_evaluation txtRecords =
  if negb (JS.includes (unquoted first) "~all") &&
     negb (JS.includes (unquoted first) "-all")
  then spf_warning (unquoted first) else spf_valid (unquoted first).
Proof.
  unfold first_match, spf_evaluation. rewrite find_hd_filter.
  destruct (filter _ txtRecords) as [|x l]; [discriminate|].
  intros [= ->]. fold (unquoted first).
  destruct (negb (JS.includes (unquoted first) "~all") &&
            negb (JS.includes (unquoted first) "-all")); reflexivity.
Qed.

Lemma dmarc_evaluation_none (dmarcRecords : list RawAnswer) :
  first_match "v=DMARC1" dmarcRecords = None ->
  dmarc_evaluation dmarcRecords = dmarc_missing.
Proof.
  unfold first_match, dmarc_evaluation. rewrite find_hd_filter.
  destruct (filter _ dmarcRecords); [reflexivity | discriminate].
Qed.

Lemma dmarc_evaluation_some (dmarcRecords : list RawAnswer) (first : RawAnswer) :
  first_match "v=DMARC1" dmarcRecords = Some first ->
  dmarc_evaluation dmarcRecords =
  if JS.includes (unquoted first) "p=none"
  then dmarc_warning (unquoted first) else dmarc_valid (unquoted first).
Proof.
  unfold first_match, dmarc_evaluation. rewrite find_hd_filter.
  destruct (filter _ dmarcRecords) as [|x l]; [discriminate|].
  intros [= ->]. fold (unquoted first).
  destruct (JS.includes (unquoted first) "p=none"); reflexivity.
Qed.

(** The first match splits the answers: none before it matches. *)
Lemma first_match_split (marker : string) (records : list RawAnswer)
      (first : RawAnswer) :
  first_match marker records = Some first ->
  exists before after,
    records = before ++ first :: after /\
    JS.includes (data first) marker = true /\
    (forall r, In r before -> JS.includes (data r) marker = false).
Proof.
  unfold first_match. induction records as [|x l IH]; simpl; [discriminate|].
  destruct (JS.includes (data x) marker) eqn:E.
  - intros [= <-]. exists [], l. repeat split; [exact E | intros r []].
  - intros H. destruct (IH H) as (before & after & -> & Hf & Hb).
    exists (x :: before), after. repeat split; [exact Hf|].
    intros r [<- | Hr]; [exact E | now apply Hb].
Qed.

(** Removing every quote leaves the other characters, in their order. *)
Lemma unquoted_without_quotes (first : RawAnswer) :
  unquoted first = without_quotes (data first).
Proof.
  unfold unquoted, without_quotes. rewrite <- replace_g_filter.
  symmetry. apply string_of_list_ascii_of_string.
Qed.

(** C3. For every TXT answer set of the domain: when no answer's data
    contains [v=spf1] the SPF evaluation is the missing one (no record,
    the issue No SPF record found, the two recommendations); otherwise the
    first such answer, in the order of the answers, is selected, the
    selected record is its data without the quote characters, and, when
    this record contains neither [~all] nor [-all], the evaluation is a
    warning with this record, the all-mechanism issue and recommendation;
    in the remaining case it is valid with this record, no issue and no
    recommendation. *)
Theorem spf_classification (txtRecords : list RawAnswer) :
  ((forall r, In r txtRecords -> JS.includes (data r) "v=spf1" = false) ->
   spf_evaluation txtRecords =
   {| type := "SPF"; status := missing; record := None;
      issues := ["No SPF record found"];
      recommendations := ["Add an SPF record to your DNS";
                          "Example: v=spf1 include:_spf.google.com ~all"] |}) /\
  ((exists r, In r txtRecords /\ JS.includes (data r) "v=spf1" = true) ->
   exists first spfRecord,
     first_match "v=spf1" txtRecords = Some first /\
     (exists before after,
         txtRecords = before ++ first :: after /\
         JS.includes (data first) "v=spf1" = true /\
         forall r, In r before -> JS.includes (data r) "v=spf1" = false) /\
     spfRecord = without_quotes (data first) /\
     record (spf_evaluation txtRecords) = Some spfRecord /\
     (JS.includes spfRecord "~all" = false /\ JS.includes spfRecord "-all" = false ->
      spf_evaluation txtRecords =
      {| type := "SPF"; status := warning; record := Some spfRecord;
         issues := ["SPF record should end with an 'all' mechanism"];
         recommendations := ["Add ~all (softfail) or -all (hardfail) at the end"] |}) /\
     (JS.includes spfRecord "~all" = true \/ JS.includes spfRecord "-all" = true ->
      spf_evaluation txtRecords =
      {| type := "SPF"; status := valid; record := Some spfRecord;
         issues := []; recommendations := [] |})).
Proof.
  split.
  - intros H. apply spf_evaluation_none. now apply first_match_none.
  - intros (r & Hin & Hr).
    destruct (first_match "v=spf1" txtRecords) as [first|] eqn:F.
    + exists first, (unquoted first). split; [reflexivity|].
      split; [exact (first_match_split _ _ _ F)|].
      split; [apply unquoted_without_quotes|].
      rewrite (spf_evaluation_some _ _ F).
      destruct (JS.includes (unquoted first) "~all") eqn:T;
        destruct (JS.includes (unquoted first) "-all") eqn:D; simpl;
        (split; [reflexivity|]); split; intros K;
        try reflexivity; destruct K; discriminate.
    + rewrite first_match_none in F. rewrite (F r Hin) in Hr. discriminate.
Qed.

(** C4. For every TXT answer set of [_dmarc.domain]: when no answer's data
    contains [v=DMARC1] the DMARC evaluation is the missing one; otherwise
    the first such answer, in the order of the answers, is taken, the
    record is its data without the quote characters, and, when this record
    contains [p=none], the evaluation is a warning with this record, the
    policy issue and recommendation; in the remaining case it is valid
    with this record, no issue and no recommendation. *)
Theorem dmarc_classification (dmarcRecords : list RawAnswer) :
  ((forall r, In r dmarcRecords -> JS.includes (data r) "v=DMARC1" = false) ->
   dmarc_evaluation dmarcRecords =
   {| type := "DMARC"; status := missing; record := None;
      issues := ["No DMARC record found"];
      recommendations :=
        ["Add a DMARC record to your DNS";
         "Example: v=DMARC1; p=quarantine; rua=mailto:dmarc@yourdomain.com"] |}) /\
  ((exists r, In r dmarcRecords /\ JS.includes (data r) "v=DMARC1" = true) ->
   exists first dmarcRecord,
     first_match "v=DMARC1" dmarcRecords = Some first /\
     (exists before after,
         dmarcRecords = before ++ first :: after /\
         JS.includes (data first) "v=DMARC1" = true /\
         forall r, In r before -> JS.includes (data r) "v=DMARC1" = false) /\
     dmarcRecord = without_quotes (data first) /\
     record (dmarc_evaluation dmarcRecords) = Some dmarcRecord /\
     (JS.includes dmarcRecord "p=none" = true ->
      dmarc_evaluation dmarcRecords =
      {| type := "DMARC"; status := warning; record := Some dmarcRecord;
         issues := ["DMARC policy is set to 'none' - emails won't be protected"];
         recommendations := ["Consider upgrading to p=quarantine or p=reject"] |}) /\
     (JS.includes dmarcRecord "p=none" = false ->
      dmarc_evaluation dmarcRecords =
      {| type := "DMARC"; status := valid; record := Some dmarcRecord;
         issues := []; recommendations := [] |})).
Proof.
  split.
  - intros H. apply dmarc_evaluation_none. now apply first_match_none.
  - intros (r & Hin & Hr).
    destruct (first_match "v=DMARC1" dmarcRecords) as [first|] eqn:F.
    + exists first, (unquoted first). split; [reflexivity|].
      split; [exact (first_match_split _ _ _ F)|].
      split; [apply unquoted_without_quotes|].
      rewrite (dmarc_evaluation_some _ _ F).
      destruct (JS.includes (unquoted first) "p=none") eqn:P; simpl;
        (split; [reflexivity|]); split; intros K;
        try reflexivity; discriminate.
    + rewrite first_match_none in F. rewrite (F r Hin) in Hr. discriminate.
Qed.

(** The answers of the testable properties of the SPF and DMARC
    evaluations. *)
Example spf_hardfail_valid :
  spf_evaluation [{| name := "example.com"; data := "v=spf1 -all" |}] =
  spf_valid "v=spf1 -all".
Proof. reflexivity. Qed.

Example spf_no_all_warning :
  spf_evaluation
    [{| name := "example.com"; data := "v=spf1 include:_spf.google.com" |}] =
  spf_warning "v=spf1 include:_spf.google.com".
Proof. reflexivity. Qed.

Example dmarc_none_warning :
  status (dmarc_evaluation
            [{| name := "_dmarc.example.com";
                data := "v=DMARC1; p=none; rua=mailto:x@y.com" |}]) = warning.
Proof. reflexivity. Qed.

Example dmarc_reject_valid :
  status (dmarc_evaluation
            [{| name := "_dmarc.example.com"; data := "v=DMARC1; p=reject" |}]) = valid.
Proof. reflexivity. Qed.

(** ** The record text *)

(** The record text of the two-string SPF answer has lost the quotes
    between its two strings too, so it is not the data with only its
    surrounding quotes stripped. *)
Lemma record_loses_interior_quotes :
  record (spf_evaluation two_strings_answers) = Some "v=spf1 a -all" /\
  strip_surrounding_quotes two_strings_data =
    ("v=spf1 a" ++ String JS.dquote (" " ++ String JS.dquote "-all"))%string /\
  record (spf_evaluation two_strings_answers) <>
    Some (strip_surrounding_quotes two_strings_data).
Proof.
  split; [reflexivity|]. split; [reflexivity|].
  vm_compute. discriminate.
Qed.

(** C6, as the code has it. For SPF and DMARC, when some answer matches,
    the record field is the data of the first matching answer in the order
    of the answers with every quote character removed, at the ends and
    inside: the characters other than the quote are kept, in their order,
    and no quote is left.  For data whose only quotes are one at each end
    this is the text between them. *)
Theorem record_is_data_without_quotes (records : list RawAnswer) (first : RawAnswer) :
  (first_match "v=spf1" records = Some first ->
   record (spf_evaluation records) = Some (without_quotes (data first))) /\
  (first_match "v=DMARC1" records = Some first ->
   record (dmarc_evaluation records) = Some (without_quotes (data first))) /\
  free_of JS.dquote (without_quotes (data first)) = true /\
  (forall body, free_of JS.dquote body = true ->
     data first = String JS.dquote (body ++ String JS.dquote EmptyString)%string ->
     without_quotes (data first) = body).
Proof.
  assert (K : forall d, without_quotes d = JS.replace_g d JS.dquote EmptyString).
  { intros d. unfold without_quotes. rewrite <- replace_g_filter.
    apply string_of_list_ascii_of_string. }
  repeat split.
  - intros F. rewrite (spf_evaluation_some _ _ F), K.
    now destruct (negb _ && negb _).
  - intros F. rewrite (dmarc_evaluation_some _ _ F), K.
    now destruct (JS.includes _ _).
  - rewrite K. apply replace_g_is_free.
  - intros body Hfree ->. rewrite K.
    change (String JS.dquote (body ++ String JS.dquote EmptyString))%string
      with (String JS.dquote EmptyString ++ body ++ String JS.dquote EmptyString)%string.
    rewrite !replace_g_app, (replace_g_free body _ Hfree).
    simpl. clear. induction body as [|c b IH]; simpl; [reflexivity|].
    now rewrite IH.
Qed.

(** C10. The DMARC policy test is a substring search of the record: when
    the data of the first matching answer contains [p=none] anywhere, the
    evaluation is a warning with the policy issue and recommendation; so
    is the evaluation of the record [v=DMARC1; p=reject; sp=none], whose
    policy tag is [p=reject]. *)
Theorem dmarc_p_none_is_substring_search
        (dmarcRecords : list RawAnswer) (first : RawAnswer) :
  first_match "v=DMARC1" dmarcRecords = Some first ->
  JS.includes (data first) "p=none" = true ->
  dmarc_evaluation dmarcRecords = dmarc_warning (unquoted first) /\
  status (dmarc_evaluation dmarcRecords) = warning /\
  dmarc_evaluation [sp_none_answer] = dmarc_warning "v=DMARC1; p=reject; sp=none".
Proof.
  intros F P.
  assert (E : dmarc_evaluation dmarcRecords = dmarc_warning (unquoted first)).
  { rewrite (dmarc_evaluation_some _ _ F). unfold unquoted.
    now rewrite (includes_replace_g (data first) "p=none" JS.dquote eq_refl P). }
  rewrite E. repeat split.
Qed.

Lemma dmarc_p_none_is_substring_search_witness :
  dmarc_evaluation [sp_none_answer] = dmarc_warning (unquoted sp_none_answer) /\
  status (dmarc_evaluation [sp_none_answer]) = warning /\
  dmarc_evaluation [sp_none_answer] = dmarc_warning "v=DMARC1; p=reject; sp=none".
Proof.
  apply (dmarc_p_none_is_substring_search [sp_none_answer] sp_none_answer);
    reflexivity.
Defined.

(** ** The overall status *)

(** C1. The overall status is a function of the three statuses alone: it
    is pass exactly when at least two are valid, fail exactly when fewer
    than two are valid and at least two are missing, and warning in every
    other case; it is the same for every permutation of the three, and
    the four stated triples map to pass, fail, warning and warning. *)
Theorem overall_status_by_counts (spf dmarc dkim : RecordStatus) :
  (overallStatus spf dmarc dkim = pass <-> two_of valid spf dmarc dkim) /\
  (overallStatus spf dmarc dkim = fail <->
   ~ two_of valid spf dmarc dkim /\ two_of missing spf dmarc dkim) /\
  (overallStatus spf dmarc dkim = warn <->
   ~ two_of valid spf dmarc dkim /\ ~ two_of missing spf dmarc dkim) /\
  (overallStatus spf dmarc dkim = overallStatus spf dkim dmarc /\
   overallStatus spf dmarc dkim = overallStatus dmarc spf dkim /\
   overallStatus spf dmarc dkim = overallStatus dmarc dkim spf /\
   overallStatus spf dmarc dkim = overallStatus dkim spf dmarc /\
   overallStatus spf dmarc dkim = overallStatus dkim dmarc spf) /\
  (overallStatus valid valid missing = pass /\
   overallStatus valid missing missing = fail /\
   overallStatus warning valid missing = warn /\
   overallStatus warning warning warning = warn).
Proof.
  unfold two_of.
  destruct spf, dmarc, dkim; vm_compute;
    repeat split; intros; try reflexivity; try discriminate;
    intuition congruence.
Qed.

(** ** The selector search *)








(** ** Transport failures *)

Lemma answers_transport_failure (dns : Resolver) (url : string) :
  transport_failure (dns url) -> answers dns url = [].
Proof. unfold answers. now intros [-> | [-> | ->]]. Qed.

Lemma answers_absent_at (dns : Resolver) (url : string) :
  transport_failure (dns url) ->
  forall u, answers (absent_at url dns) u = answers dns u.
Proof.
  intros H u. unfold absent_at, answers at 1.
  destruct (String.eqb_spec u url) as [->|]; [|reflexivity].
  now rewrite answers_transport_failure.
Qed.

Section SameAnswers.

Variables d1 d2 : Resolver.
Hypothesis same : forall u, answers d1 u = answers d2 u.

Lemma has_answer_same (domain selector : string) :
  has_answer d1 domain selector = has_answer d2 domain selector.
Proof. unfold has_answer. now rewrite same. Qed.

Lemma find_has_answer_same (domain : string) (selectors : list string) :
  find (has_answer d1 domain) selectors = find (has_answer d2 domain) selectors.
Proof.
  induction selectors as [|s l IH]; simpl; [reflexivity|].
  now rewrite has_answer_same, IH.
Qed.

Lemma dkim_urls_same (domain : string) (selectors : list string) :
  dkim_urls d1 domain selectors = dkim_urls d2 domain selectors.
Proof.
  induction selectors as [|s l IH]; simpl; [reflexivity|].
  now rewrite has_answer_same, IH.
Qed.

Lemma report_for_same (e domain now : string) :
  report_for d1 e domain now = report_for d2 e domain now.
Proof. unfold report_for. now rewrite !same, find_has_answer_same. Qed.

(** A check sees the resolver through the answers of [checkDNS] only. *)
Lemma after_check_same (w : World) : after_check d1 w = after_check d2 w.
Proof.
  destruct (string_dec (email w) EmptyString) as [E|E].
  - now rewrite !handleCheck_empty.
  - destruct (nth_error (JS.split (email w) "@") 1) as [part|] eqn:P.
    + rewrite !(handleCheck_accepts _ part w E P).
      unfold check_urls. now rewrite report_for_same, dkim_urls_same.
    + now rewrite !handleCheck_rejects.
Qed.

End SameAnswers.

(** On a typed resolver: a call of [checkDNS] whose request fails in
    transport (the network fails, the body is not JSON, or the body has no
    answer field) does not throw: it returns the empty answer set.  A check
    runs exactly as with a resolver that answers this request with an empty
    answer set, and the SPF and DMARC evaluations of the call's answers are
    the missing ones, as a DKIM selector queried by the call counts as
    having no answer. *)
Theorem transport_failure_is_no_answer
        (dns : Resolver) (domain recordType : string) (w : World) :
  transport_failure (dns (resolveUrl domain recordType)) ->
  checkDNS dns domain recordType w =
    (Normal [], logs_w [resolveUrl domain recordType] w) /\
  checkDNS dns domain recordType w =
    checkDNS (absent_at (resolveUrl domain recordType) dns) domain recordType w /\
  (forall w', after_check dns w' =
              after_check (absent_at (resolveUrl domain recordType) dns) w') /\
  status (spf_evaluation (answers dns (resolveUrl domain recordType))) = missing /\
  status (dmarc_evaluation (answers dns (resolveUrl domain recordType))) = missing /\
  (0 <? length (answers dns (resolveUrl domain recordType))) = false.
Proof.
  intros H.
  pose proof (answers_transport_failure _ _ H) as A.
  pose proof (answers_absent_at _ _ H) as S.
  repeat split.
  - now rewrite checkDNS_run, A.
  - now rewrite !checkDNS_run, S.
  - intros w'. symmetry. now apply after_check_same.
  - now rewrite A.
  - now rewrite A.
  - now rewrite A.
Qed.

(** With the network down a check still yields a report, all of whose
    evaluations are the missing ones. *)
Example network_down_report :
  result (after_check network_down (fresh "postmaster@example.com")) =
  Some {| Report.email := "postmaster@example.com";
          Report.domain := "example.com";
          Report.overall_status := fail;
          Report.spf := spf_missing;
          Report.dmarc := dmarc_missing;
          Report.dkim := dkim_missing;
          Report.timestamp := "2024-01-01T00:00:00.000Z" |}.
Proof. reflexivity. Qed.

(** ** Malformed email addresses *)

Lemma split_no_separator (s : string) (c : ascii) :
  JS.includes s (String c EmptyString) = false -> JS.split s c = [s].
Proof.
  induction s as [|x s IH]; [reflexivity|].
  rewrite includes_unfold. cbn [prefix JS.split].
  destruct (Ascii.eqb_spec x c) as [->|ne].
  - destruct (ascii_dec c c) as [_|n]; [|now elim n].
    now destruct s.
  - destruct (ascii_dec c x) as [e|_]; [now elim ne|].
    intros H. now rewrite (IH H).
Qed.

(** An email with nothing after its first [@] is not refused, and neither
    is the empty email: for [user@] the domain is the empty text, the five
    requests are made for names of the empty domain and a report is shown
    with no error; for the empty email the handler returns at once and
    shows no error. *)
Lemma empty_domain_is_checked :
  after_first "@" "user@" = Some EmptyString /\
  result (after_check no_records (fresh "user@")) =
    Some (report_for no_records "user@" EmptyString "2024-01-01T00:00:00.000Z") /\
  error (after_check no_records (fresh "user@")) = EmptyString /\
  fetched (after_check no_records (fresh "user@")) =
    ["https://dns.google/resolve?name=&type=TXT";
     "https://dns.google/resolve?name=_dmarc.&type=TXT";
     "https://dns.google/resolve?name=default._domainkey.&type=TXT";
     "https://dns.google/resolve?name=selector1._domainkey.&type=TXT";
     "https://dns.google/resolve?name=google._domainkey.&type=TXT"] /\
  ~ rejected_before_query (fresh "user@") (after_check no_records (fresh "user@")) /\
  JS.includes EmptyString "@" = false /\
  ~ rejected_before_query (fresh EmptyString)
                          (after_check no_records (fresh EmptyString)).
Proof.
  repeat split; try reflexivity.
  - intros (_ & H & _). vm_compute in H. discriminate.
  - intros (H & _). vm_compute in H. now apply H.
Qed.

(** C5, as the code has it. For every email that is not empty and
    contains no [@], the check fails before any request is made: the
    exception is caught and shown as the one error message of the page,
    there is no report, no request is recorded and the loading flag is
    cleared.  The email [not-an-email] is such a one. *)
Theorem handleCheck_refuses_email_without_at (dns : Resolver) (w : World) :
  email w <> EmptyString ->
  JS.includes (email w) "@" = false ->
  rejected_before_query w (after_check dns w) /\
  error (after_check dns w) =
    "An error occurred while checking DNS records. Please try again." /\
  loading (after_check dns w) = false /\
  handleCheck_body dns (email w) w = (Throw TypeError, w).
Proof.
  intros Hne Hat.
  assert (N : nth_error (JS.split (email w) "@") 1 = None)
    by now rewrite (split_no_separator _ _ Hat).
  rewrite (handleCheck_rejects dns w Hne N), (handleCheck_body_throws dns _ w N).
  unfold rejected_before_query; simpl. repeat split. discriminate.
Qed.

Lemma handleCheck_refuses_email_without_at_witness :
  rejected_before_query (fresh "not-an-email")
                        (after_check no_records (fresh "not-an-email")) /\
  error (after_check no_records (fresh "not-an-email")) =
    "An error occurred while checking DNS records. Please try again." /\
  loading (after_check no_records (fresh "not-an-email")) = false /\
  handleCheck_body no_records "not-an-email" (fresh "not-an-email") =
    (Throw TypeError, fresh "not-an-email").
Proof.
  apply (handleCheck_refuses_email_without_at no_records (fresh "not-an-email")).
  - simpl. discriminate.
  - reflexivity.
Defined.

(** ** The invariant of the data model *)

Lemma spf_invariant (txtRecords : list RawAnswer) :
  evaluation_invariant (spf_evaluation txtRecords).
Proof.
  unfold evaluation_invariant.
  destruct (first_match "v=spf1" txtRecords) as [first|] eqn:F.
  - rewrite (spf_evaluation_some _ _ F).
    destruct (negb _ && negb _); simpl; intuition (discriminate || auto).
  - rewrite (spf_evaluation_none _ F). simpl. intuition (discriminate || auto).
Qed.

Lemma dmarc_invariant (dmarcRecords : list RawAnswer) :
  evaluation_invariant (dmarc_evaluation dmarcRecords).
Proof.
  unfold evaluation_invariant.
  destruct (first_match "v=DMARC1" dmarcRecords) as [first|] eqn:F.
  - rewrite (dmarc_evaluation_some _ _ F).
    destruct (JS.includes _ _); simpl; intuition (discriminate || auto).
  - rewrite (dmarc_evaluation_none _ F). simpl. intuition (discriminate || auto).
Qed.

Lemma dkim_invariant (dns : Resolver) (domain : string) :
  evaluation_invariant
    (match find (has_answer dns domain) dkimSelectors with
     | Some selector => dkim_found selector
     | None => dkim_missing
     end).
Proof.
  unfold evaluation_invariant.
  destruct (find _ _); simpl; intuition (discriminate || auto).
Qed.

(** C8. Every evaluation the SPF, DMARC and DKIM evaluators produce
    satisfies the invariant of the data model: a missing status comes with
    no record, a warning, missing or invalid status with at least one
    issue, and a valid status with none.  The selector loop always
    produces an evaluation, and so do the three evaluations of the report
    of every check whose email has a second piece. *)
Theorem evaluations_satisfy_invariant (dns : Resolver) :
  (forall txtRecords, evaluation_invariant (spf_evaluation txtRecords)) /\
  (forall dmarcRecords, evaluation_invariant (dmarc_evaluation dmarcRecords)) /\
  (forall domain w, exists dkim,
      fst (dkim_loop dns domain dkimSelectors dkim_missing w) = Normal dkim /\
      evaluation_invariant dkim) /\
  (forall w part,
      email w <> EmptyString ->
      nth_error (JS.split (email w) "@") 1 = Some part ->
      exists r, result (after_check dns w) = Some r /\
                evaluation_invariant (Report.spf r) /\
                evaluation_invariant (Report.dmarc r) /\
                evaluation_invariant (Report.dkim r)).
Proof.
  split; [exact spf_invariant|]. split; [exact dmarc_invariant|]. split.
  - intros domain w. rewrite dkim_loop_run. eexists. split; [reflexivity|].
    apply dkim_invariant.
  - intros w part Hne P. rewrite (handleCheck_accepts dns part w Hne P).
    eexists. split; [reflexivity|]. unfold report_for; simpl.
    split; [apply spf_invariant|]. split; [apply dmarc_invariant|].
    apply dkim_invariant.
Qed.

(** ** Determinism *)

(** C9. A check is determined by the email and the resolver's answers:
    two runs with the same email and resolver, whatever the two instants
    and whatever the page showed before each, end with the same error
    message and either both without a report or with reports equal in the
    domain, the overall status and the three evaluations, that is in every
    field but the timestamp.  (The handler returns at once on the empty
    email, which yields no report and leaves the page as it was.) *)
Theorem check_deterministic (dns : Resolver) (w1 w2 : World) :
  email w1 = email w2 ->
  (email w1 <> EmptyString ->
   same_outcome (after_check dns w1) (after_check dns w2)) /\
  (email w1 = EmptyString ->
   after_check dns w1 = w1 /\ after_check dns w2 = w2).
Proof.
  intros E. split.
  - intros Hne. assert (Hne2 : email w2 <> EmptyString) by now rewrite <- E.
    destruct (nth_error (JS.split (email w1) "@") 1) as [part|] eqn:P.
    + rewrite (handleCheck_accepts dns part w1 Hne P).
      rewrite E in P. rewrite (handleCheck_accepts dns part w2 Hne2 P).
      unfold same_outcome, same_but_timestamp, report_for; simpl.
      rewrite E. repeat split.
    + rewrite (handleCheck_rejects dns w1 Hne P).
      rewrite E in P. rewrite (handleCheck_rejects dns w2 Hne2 P).
      unfold same_outcome; simpl. now split.
  - intros H0. split; apply handleCheck_empty; [|rewrite <- E]; exact H0.
Qed.

Lemma check_deterministic_witness :
  (email (fresh "postmaster@example.com") <> EmptyString ->
   same_outcome
     (after_check default_and_google (fresh "postmaster@example.com"))
     (after_check default_and_google (stale_page "postmaster@example.com"))) /\
  (email (fresh "postmaster@example.com") = EmptyString ->
   after_check default_and_google (fresh "postmaster@example.com") =
     fresh "postmaster@example.com" /\
   after_check default_and_google (stale_page "postmaster@example.com") =
     stale_page "postmaster@example.com").
Proof.
  apply (check_deterministic default_and_google).
  reflexivity.
Defined.

(** The two runs of the example end with the same report but for the
    instant. *)
Example check_twice :
  result (after_check default_and_google (fresh "postmaster@example.com")) =
    Some (report_for default_and_google "postmaster@example.com" "example.com"
                     "2024-01-01T00:00:00.000Z") /\
  result (after_check default_and_google (stale_page "postmaster@example.com")) =
    Some (report_for default_and_google "postmaster@example.com" "example.com"
                     "2025-06-30T12:00:00.000Z").
Proof. split; reflexivity. Qed.

(** * Further properties of the code *)

(** ** The derived domain *)

Lemma append_empty_r (s : string) : (s ++ EmptyString)%string = s.
Proof. induction s as [|c s IH]; simpl; [reflexivity | now rewrite IH]. Qed.

Lemma split_free (s : string) (c : ascii) :
  free_of c s = true -> JS.split s c = [s].
Proof.
  induction s as [|x s IH]; simpl; [reflexivity|].
  destruct (Ascii.eqb x c); simpl; [discriminate|].
  intros H. now rewrite (IH H).
Qed.

Lemma split_app_sep (u tail : string) (c : ascii) :
  free_of c u = true ->
  JS.split (u ++ String c tail) c = u :: JS.split tail c.
Proof.
  induction u as [|x u IH]; simpl.
  - intros _. now rewrite Ascii.eqb_refl.
  - destruct (Ascii.eqb x c); simpl; [discriminate|].
    intros H. now rewrite (IH H).
Qed.

Lemma split_head (h rest : string) (c : ascii) :
  free_of c h = true ->
  rest = EmptyString \/ (exists more, rest = String c more) ->
  hd_error (JS.split (h ++ rest) c) = Some h.
Proof.
  intros F [-> | [more ->]].
  - now rewrite append_empty_r, split_free.
  - now rewrite split_app_sep.
Qed.

Lemma split_cons (s : string) (c : ascii) :
  exists h t, JS.split s c = h :: t.
Proof.
  induction s as [|x s (h & t & IH)]; simpl; [now eauto|].
  destruct (Ascii.eqb x c); [now eauto|]. rewrite IH. now eauto.
Qed.

Lemma includes_char_cons (x c : ascii) (s : string) :
  JS.includes (String x s) (String c EmptyString) =
  Ascii.eqb x c || JS.includes s (String c EmptyString).
Proof.
  rewrite includes_unfold. cbn [prefix].
  destruct (Ascii.eqb_spec x c) as [->|ne].
  - destruct (ascii_dec c c) as [_|n]; [|now elim n]. now destruct s.
  - destruct (ascii_dec c x) as [e|_]; [now elim ne | reflexivity].
Qed.

Lemma split_second (s : string) (c : ascii) :
  JS.includes s (String c EmptyString) = true ->
  exists part, nth_error (JS.split s c) 1 = Some part.
Proof.
  induction s as [|x s IH]; [discriminate|].
  rewrite includes_char_cons. cbn [JS.split].
  destruct (Ascii.eqb x c); simpl.
  - intros _. destruct (split_cons s c) as (h & t & ->). now exists h.
  - intros H. destruct (IH H) as [part P].
    destruct (JS.split s c) as [|h t]; [discriminate|]. now exists part.
Qed.

(** An email has a domain exactly when it contains an [@]. *)
Lemma domain_of_some (e : string) :
  JS.includes e "@" = true <-> exists d, domain_of e = Some d.
Proof.
  unfold domain_of. split.
  - intros H. destruct (split_second e "@" H) as [part ->]. simpl. eauto.
  - intros [d H]. destruct (JS.includes e "@") eqn:I; [reflexivity|].
    now rewrite (split_no_separator _ _ I) in H.
Qed.

Lemma domain_of_nonempty (e d : string) :
  domain_of e = Some d -> e <> EmptyString.
Proof. now intros H ->. Qed.

(** The outcome of a check of an email with a domain. *)
Lemma after_check_domain (dns : Resolver) (w : World) (d : string) :
  domain_of (email w) = Some d ->
  after_check dns w =
  {| email := email w; loading := false;
     result := Some (report_for dns (email w) d (clock w));
     error := EmptyString;
     fetched := fetched w ++ check_urls dns d;
     clock := clock w |}.
Proof.
  intros H. pose proof (domain_of_nonempty _ _ H) as Hne.
  unfold domain_of in H.
  destruct (nth_error (JS.split (email w) "@") 1) as [part|] eqn:P;
    [|discriminate].
  injection H as <-. exact (handleCheck_accepts dns part w Hne P).
Qed.

(** On a typed resolver: the domain of the report is the second piece of
    the email split at [@], lowered by [JS.toLowerCase], and the email
    field keeps the email as typed. *)
Theorem domain_is_second_piece
        (dns : Resolver) (w : World) (user host rest : string) :
  email w = (user ++ "@" ++ host ++ rest)%string ->
  free_of "@" user = true ->
  free_of "@" host = true ->
  rest = EmptyString \/ (exists more, rest = String "@" more) ->
  exists r, result (after_check dns w) = Some r /\
            Report.domain r = JS.toLowerCase host /\
            Report.email r = email w /\
            error (after_check dns w) = EmptyString.
Proof.
  intros E Fu Fh Hrest.
  assert (D : domain_of (email w) = Some (JS.toLowerCase host)).
  { unfold domain_of. rewrite E.
    change (user ++ "@" ++ host ++ rest)%string
      with (user ++ String "@" (host ++ rest))%string.
    rewrite (split_app_sep user _ "@" Fu).
    pose proof (split_head host rest "@" Fh Hrest) as H.
    destruct (JS.split (host ++ rest) "@") as [|h t]; [discriminate|].
    simpl in H. injection H as ->. reflexivity. }
  rewrite (after_check_domain dns w _ D). eexists. simpl.
  repeat split.
Qed.

Lemma lower_not_upper (c : ascii) : is_upper (JS.lower c) = false.
Proof. destruct c as [[] [] [] [] [] [] [] []]; reflexivity. Qed.

Lemma lower_fixed (c : ascii) : is_upper c = false -> JS.lower c = c.
Proof. unfold is_upper, JS.lower. now intros ->. Qed.

Lemma toLowerCase_no_upper (s : string) (c : ascii) :
  In c (list_ascii_of_string (JS.toLowerCase s)) -> is_upper c = false.
Proof.
  induction s as [|x s IH]; simpl; [contradiction|].
  intros [<- | H]; [apply lower_not_upper | now apply IH].
Qed.

Lemma toLowerCase_idempotent (s : string) :
  JS.toLowerCase (JS.toLowerCase s) = JS.toLowerCase s.
Proof.
  induction s as [|x s IH]; simpl; [reflexivity|].
  now rewrite IH, (lower_fixed _ (lower_not_upper x)).
Qed.

(** On a typed resolver: the domain of the report has no upper-case ASCII
    letter, lowering it again changes nothing, and the requests of the
    check are those of that domain. *)
Theorem report_domain_is_lower_case (dns : Resolver) (w : World) :
  JS.includes (email w) "@" = true ->
  exists r, result (after_check dns w) = Some r /\
            (forall c, In c (list_ascii_of_string (Report.domain r)) ->
                       is_upper c = false) /\
            JS.toLowerCase (Report.domain r) = Report.domain r /\
            fetched (after_check dns w) =
              fetched w ++ check_urls dns (Report.domain r).
Proof.
  intros H. apply domain_of_some in H. destruct H as [d D].
  rewrite (after_check_domain dns w d D). eexists. simpl.
  split; [reflexivity|].
  unfold domain_of in D.
  destruct (nth_error (JS.split (email w) "@") 1) as [part|]; [|discriminate].
  injection D as <-. repeat split.
  - intros c. apply toLowerCase_no_upper.
  - apply toLowerCase_idempotent.
Qed.

(** ** The requests of a check *)

Lemma dkim_urls_firstn (dns : Resolver) (domain : string) (selectors : list string) :
  selectors <> [] ->
  exists n, 1 <= n <= length selectors /\
            dkim_urls dns domain selectors =
            map (selectorUrl domain) (firstn n selectors) /\
            (n < length selectors ->
             exists selector, nth_error selectors (n - 1) = Some selector /\
                              has_answer dns domain selector = true).
Proof.
  induction selectors as [|s l IH]; [congruence|]. intros _.
  cbn [dkim_urls]. destruct (has_answer dns domain s) eqn:A.
  - exists 1. simpl. repeat split; try lia. intros _. now exists s.
  - destruct l as [|s' l'].
    + exists 1. simpl. repeat split; try lia.
    + destruct IH as (n & Hn & E & Hit); [discriminate|].
      exists (S n). rewrite E. cbn [firstn map length] in *.
      repeat split; try lia. intros Hlt.
      destruct Hit as (sel & Hsel & Hans); [lia|].
      exists sel. split; [|exact Hans].
      destruct n as [|n]; [lia|]. simpl in *. now rewrite Nat.sub_0_r in Hsel.
Qed.

(** On a typed resolver: a check of an email with a domain makes between
    three and five requests, always in the same order: the TXT records of
    the domain, those of [_dmarc.] the domain, then the selectors default,
    selector1, google one after the other; the selector requests stop
    before the end of the list only at a selector that has an answer. *)
Theorem check_requests (dns : Resolver) (w : World) (d : string) :
  domain_of (email w) = Some d ->
  exists n, 1 <= n <= 3 /\
    fetched (after_check dns w) =
      fetched w ++
      resolveUrl d "TXT" :: resolveUrl ("_dmarc." ++ d)%string "TXT" ::
      map (fun selector => resolveUrl (selector ++ "._domainkey." ++ d)%string "TXT")
          (firstn n ["default"; "selector1"; "google"]) /\
    length (fetched (after_check dns w)) = length (fetched w) + 2 + n /\
    (n < 3 -> exists selector,
        nth_error ["default"; "selector1"; "google"] (n - 1) = Some selector /\
        answers dns (resolveUrl (selector ++ "._domainkey." ++ d)%string "TXT") <> []).
Proof.
  intros D. rewrite (after_check_domain dns w d D). cbn [fetched].
  destruct (dkim_urls_firstn dns d dkimSelectors) as (n & Hn & E & Hit);
    [discriminate|].
  exists n. unfold check_urls. rewrite E.
  split; [exact Hn|]. split; [reflexivity|]. split.
  - rewrite length_app. cbn [length]. rewrite length_map, length_firstn.
    change (length dkimSelectors) with 3 in *. lia.
  - intros Hlt. destruct Hit as (sel & Hsel & Hans); [exact Hlt|].
    exists sel. split; [exact Hsel|].
    unfold has_answer, selectorUrl in Hans. intros K. rewrite K in Hans.
    discriminate.
Qed.

(** ** The handler always completes *)




(** ** The selector search without an answer *)

Lemma find_none_iff {A} (f : A -> bool) (l : list A) :
  find f l = None <-> (forall x, In x l -> f x = false).
Proof.
  split.
  - intros H x Hin. exact (find_none f l H x Hin).
  - intros H. induction l as [|y l IH]; simpl; [reflexivity|].
    rewrite (H y (or_introl eq_refl)). apply IH. intros x Hx. apply H. now right.
Qed.

Lemma dkim_urls_all (dns : Resolver) (domain : string) (selectors : list string) :
  (forall s, In s selectors -> has_answer dns domain s = false) ->
  dkim_urls dns domain selectors = map (selectorUrl domain) selectors.
Proof.
  induction selectors as [|s l IH]; simpl; [reflexivity|].
  intros H. rewrite (H s (or_introl eq_refl)). f_equal. apply IH.
  intros x Hx. apply H. now right.
Qed.

Lemma has_answer_false_iff (dns : Resolver) (domain selector : string) :
  has_answer dns domain selector = false <->
  answers dns (selectorUrl domain selector) = [].
Proof.
  unfold has_answer. destruct (answers dns (selectorUrl domain selector)); simpl.
  - now split.
  - split; discriminate.
Qed.

(** X5. The DKIM evaluation is the missing one exactly when none of the
    three selectors has an answer, and then all three selectors have been
    requested, in the order of the list. *)
Theorem dkim_missing_iff_no_selector_answers
        (dns : Resolver) (domain : string) (w : World) :
  (fst (dkim_loop dns domain dkimSelectors dkim_missing w) = Normal dkim_missing <->
   forall selector, In selector ["default"; "selector1"; "google"] ->
     answers dns (resolveUrl (selector ++ "._domainkey." ++ domain)%string "TXT") = []) /\
  (fst (dkim_loop dns domain dkimSelectors dkim_missing w) = Normal dkim_missing ->
   fetched (snd (dkim_loop dns domain dkimSelectors dkim_missing w)) =
   fetched w ++
   [resolveUrl ("default._domainkey." ++ domain)%string "TXT";
    resolveUrl ("selector1._domainkey." ++ domain)%string "TXT";
    resolveUrl ("google._domainkey." ++ domain)%string "TXT"]).
Proof.
  rewrite dkim_loop_run. cbn [fst snd].
  assert (K : find (has_answer dns domain) dkimSelectors = None <->
              forall selector, In selector dkimSelectors ->
                answers dns (selectorUrl domain selector) = []).
  { rewrite find_none_iff. split; intros H s Hs; apply has_answer_false_iff, H, Hs. }
  assert (M : match find (has_answer dns domain) dkimSelectors with
              | Some selector => dkim_found selector
              | None => dkim_missing
              end = dkim_missing <->
              find (has_answer dns domain) dkimSelectors = None).
  { destruct (find _ _); split; try reflexivity; discriminate. }
  split.
  - split.
    + intros [= H]. apply K, M, H.
    + intros H. f_equal. apply M, K, H.
  - intros [= H]. apply M in H. rewrite find_none_iff in H.
    rewrite (dkim_urls_all dns domain dkimSelectors H). reflexivity.
Qed.

(** ** What the evaluators produce *)

Lemma includes_nonempty (s pat : string) :
  pat <> EmptyString -> JS.includes s pat = true -> s <> EmptyString.
Proof.
  intros Hp H ->. destruct pat; [now apply Hp | discriminate].
Qed.

Lemma first_match_includes (marker : string) (records : list RawAnswer)
      (first : RawAnswer) :
  first_match marker records = Some first ->
  JS.includes (data first) marker = true.
Proof. intros H. exact (proj2 (find_some _ _ H)). Qed.

Lemma unquoted_nonempty (marker : string) (first : RawAnswer) :
  marker <> EmptyString -> free_of JS.dquote marker = true ->
  JS.includes (data first) marker = true ->
  unquoted first <> EmptyString.
Proof.
  intros Hm Hf H. apply (includes_nonempty _ marker Hm).
  now apply includes_replace_g.
Qed.

(** The facts about a produced evaluation that the statements below
    share. *)
Lemma produced_cases (dns : Resolver) (ev : RecordEvaluation) :
  produced dns ev ->
  (status ev = missing /\ record ev = None /\ issues ev <> [] /\
   recommendations ev <> []) \/
  (status ev = warning /\ (exists c rest, record ev = Some (String c rest)) /\
   issues ev <> [] /\ recommendations ev <> [] /\ type ev <> "DKIM") \/
  (status ev = valid /\ (exists c rest, record ev = Some (String c rest)) /\
   issues ev = [] /\ recommendations ev = []).
Proof.
  intros [txt | recs | domain w dkim H].
  - destruct (first_match "v=spf1" txt) as [first|] eqn:F.
    + rewrite (spf_evaluation_some _ _ F).
      pose proof (unquoted_nonempty "v=spf1" first ltac:(discriminate) eq_refl
                    (first_match_includes _ _ _ F)) as N.
      destruct (unquoted first) as [|c rest] eqn:U; [now elim N|].
      destruct (negb _ && negb _); simpl.
      * right; left. repeat split; eauto; discriminate.
      * right; right. repeat split; eauto.
    + rewrite (spf_evaluation_none _ F). left. simpl. repeat split; discriminate.
  - destruct (first_match "v=DMARC1" recs) as [first|] eqn:F.
    + rewrite (dmarc_evaluation_some _ _ F).
      pose proof (unquoted_nonempty "v=DMARC1" first ltac:(discriminate) eq_refl
                    (first_match_includes _ _ _ F)) as N.
      destruct (unquoted first) as [|c rest] eqn:U; [now elim N|].
      destruct (JS.includes _ _); simpl.
      * right; left. repeat split; eauto; discriminate.
      * right; right. repeat split; eauto.
    + rewrite (dmarc_evaluation_none _ F). left. simpl. repeat split; discriminate.
  - assert (E : dkim = dkim_evaluation dns domain).
    { rewrite dkim_loop_run in H. unfold dkim_evaluation.
      exact (eq_sym (f_equal (fun c => match c with Normal a => a | Throw _ => dkim end) H)). }
    rewrite E. unfold dkim_evaluation.
    generalize (find (has_answer dns domain) dkimSelectors). intros [s|].
    + right; right. simpl. repeat split; eauto.
    + left. simpl. repeat split; discriminate.
Qed.

(** X6. No evaluator ever produces the status invalid, and the selector
    search never produces a warning.  An evaluation has no record text
    exactly when its status is missing, and a record text is never empty;
    it has no recommendation exactly when its status is valid. *)
Theorem produced_evaluations (dns : Resolver) (ev : RecordEvaluation) :
  produced dns ev ->
  status ev <> invalid /\
  (type ev = "DKIM" -> status ev <> warning) /\
  (record ev = None <-> status ev = missing) /\
  record ev <> Some EmptyString /\
  (recommendations ev = [] <-> status ev = valid).
Proof.
  intros P.
  destruct (produced_cases dns ev P)
    as [(S & R & I & C) | [(S & (c & rest & R) & I & C & T) | (S & (c & rest & R) & I & C)]];
    rewrite S, R; repeat split; intros; try congruence; try discriminate.
Qed.

Lemma produced_evaluations_witness :
  status (spf_evaluation conflicting_spf) <> invalid /\
  (type (spf_evaluation conflicting_spf) = "DKIM" ->
   status (spf_evaluation conflicting_spf) <> warning) /\
  (record (spf_evaluation conflicting_spf) = None <->
   status (spf_evaluation conflicting_spf) = missing) /\
  record (spf_evaluation conflicting_spf) <> Some EmptyString /\
  (recommendations (spf_evaluation conflicting_spf) = [] <->
   status (spf_evaluation conflicting_spf) = valid).
Proof.
  apply (produced_evaluations no_records (spf_evaluation conflicting_spf)).
  apply produced_spf.
Defined.

(** ** Answers after the first match *)

(** X7. Only the first matching answer counts: the SPF and the DMARC
    evaluation of an answer set are those of its first matching answer
    alone, so the answers that do not match and every later matching
    answer, a conflicting one included, change nothing. *)
Theorem only_first_match_counts (records : list RawAnswer) (first : RawAnswer) :
  (first_match "v=spf1" records = Some first ->
   spf_evaluation records = spf_evaluation [first]) /\
  (first_match "v=DMARC1" records = Some first ->
   dmarc_evaluation records = dmarc_evaluation [first]).
Proof.
  split; intros F.
  - rewrite (spf_evaluation_some _ _ F). symmetry. apply spf_evaluation_some.
    unfold first_match. simpl. now rewrite (first_match_includes _ _ _ F).
  - rewrite (dmarc_evaluation_some _ _ F). symmetry. apply dmarc_evaluation_some.
    unfold first_match. simpl. now rewrite (first_match_includes _ _ _ F).
Qed.

(** Of two SPF answers that disagree, the first decides. *)
Example conflicting_spf_first_decides :
  spf_evaluation conflicting_spf = spf_valid "v=spf1 -all" /\
  spf_evaluation (rev conflicting_spf) =
  spf_warning "v=spf1 include:_spf.example.net".
Proof. split; reflexivity. Qed.

(** X8. The test for the all mechanism is a substring search: when the
    data of the first SPF answer contains [~all] or [-all] anywhere, in a
    host name for one, the evaluation is valid with no issue. *)
Theorem spf_all_is_substring_search (txtRecords : list RawAnswer) (first : RawAnswer) :
  first_match "v=spf1" txtRecords = Some first ->
  JS.includes (data first) "~all" = true \/ JS.includes (data first) "-all" = true ->
  spf_evaluation txtRecords = spf_valid (unquoted first).
Proof.
  intros F H. rewrite (spf_evaluation_some _ _ F). unfold unquoted.
  destruct H as [H | H].
  - now rewrite (includes_replace_g (data first) "~all" JS.dquote eq_refl H).
  - rewrite (includes_replace_g (data first) "-all" JS.dquote eq_refl H).
    simpl. now rewrite andb_false_r.
Qed.

Lemma spf_all_is_substring_search_witness :
  spf_evaluation [all_in_host_name] = spf_valid (unquoted all_in_host_name).
Proof.
  apply (spf_all_is_substring_search [all_in_host_name] all_in_host_name).
  - reflexivity.
  - right. reflexivity.
Defined.

(** ** The overall status is monotone *)

Lemma overallStatus_monotone_1 (a a' b c : RecordStatus) :
  status_rank a <= status_rank a' ->
  overall_rank (overallStatus a b c) <= overall_rank (overallStatus a' b c).
Proof. destruct a, a', b, c; simpl; intros H; try lia; vm_compute; lia. Qed.

Lemma overallStatus_swap_12 (a b c : RecordStatus) :
  overallStatus a b c = overallStatus b a c.
Proof. destruct a, b, c; reflexivity. Qed.

Lemma overallStatus_swap_13 (a b c : RecordStatus) :
  overallStatus a b c = overallStatus c b a.
Proof. destruct a, b, c; reflexivity. Qed.

(** X9. A better record never gives a worse verdict: with missing below
    warning and invalid, and these below valid, raising any of the three
    statuses never lowers the overall status in the order fail, warning,
    pass; and invalid counts exactly as warning. *)
Theorem overallStatus_monotone (a a' b b' c c' : RecordStatus) :
  status_rank a <= status_rank a' ->
  status_rank b <= status_rank b' ->
  status_rank c <= status_rank c' ->
  overall_rank (overallStatus a b c) <= overall_rank (overallStatus a' b' c') /\
  overallStatus invalid b c = overallStatus warning b c /\
  overallStatus a invalid c = overallStatus a warning c /\
  overallStatus a b invalid = overallStatus a b warning.
Proof.
  intros Ha Hb Hc. split.
  - apply Nat.le_trans with (overall_rank (overallStatus a' b c)).
    { now apply overallStatus_monotone_1. }
    apply Nat.le_trans with (overall_rank (overallStatus a' b' c)).
    { rewrite (overallStatus_swap_12 a' b c), (overallStatus_swap_12 a' b' c).
      now apply overallStatus_monotone_1. }
    rewrite (overallStatus_swap_13 a' b' c), (overallStatus_swap_13 a' b' c').
    now apply overallStatus_monotone_1.
  - split; [|split]; [destruct b, c | destruct a, c | destruct a, b]; reflexivity.
Qed.

Lemma overallStatus_monotone_witness :
  overall_rank (overallStatus missing warning valid) <=
  overall_rank (overallStatus warning valid valid) /\
  overallStatus invalid warning valid = overallStatus warning warning valid /\
  overallStatus missing invalid valid = overallStatus missing warning valid /\
  overallStatus missing warning invalid = overallStatus missing warning warning.
Proof.
  apply (overallStatus_monotone missing warning warning valid valid valid);
    simpl; lia.
Defined.

(** ** A check during an outage *)

(** X10. When every request fails in transport, a check of an email with a
    domain does not end in an error: it yields a report in which SPF,
    DMARC and DKIM are all missing and the overall status is fail, after
    all five requests, and no error message is set. *)
Theorem outage_reads_as_missing (dns : Resolver) (w : World) :
  (forall url, transport_failure (dns url)) ->
  JS.includes (email w) "@" = true ->
  exists r, result (after_check dns w) = Some r /\
            Report.spf r = spf_missing /\
            Report.dmarc r = dmarc_missing /\
            Report.dkim r = dkim_missing /\
            Report.overall_status r = fail /\
            error (after_check dns w) = EmptyString /\
            length (fetched (after_check dns w)) = length (fetched w) + 5.
Proof.
  intros Hfail H. apply domain_of_some in H. destruct H as [d D].
  rewrite (after_check_domain dns w d D). eexists. split; [reflexivity|].
  assert (A : forall u, answers dns u = []).
  { intros u. apply answers_transport_failure, Hfail. }
  assert (F : forall s, In s dkimSelectors -> has_answer dns d s = false).
  { intros s _. unfold has_answer. now rewrite A. }
  unfold report_for, check_urls. cbn [Report.spf Report.dmarc Report.dkim
    Report.overall_status error fetched].
  rewrite !A, (proj2 (find_none_iff _ _) F), (dkim_urls_all dns d _ F).
  repeat split. rewrite length_app. simpl. lia.
Qed.

Lemma outage_reads_as_missing_witness :
  exists r, result (after_check network_down (fresh "postmaster@example.com")) = Some r /\
            Report.spf r = spf_missing /\
            Report.dmarc r = dmarc_missing /\
            Report.dkim r = dkim_missing /\
            Report.overall_status r = fail /\
            error (after_check network_down (fresh "postmaster@example.com")) =
              EmptyString /\
            length (fetched (after_check network_down (fresh "postmaster@example.com"))) =
              length (fetched (fresh "postmaster@example.com")) + 5.
Proof.
  apply (outage_reads_as_missing network_down (fresh "postmaster@example.com")).
  - intros url. left. reflexivity.
  - reflexivity.
Defined.

(** ** What the page shows *)

(** X11. The card of a produced evaluation shows the record block exactly
    when the status is not missing, and the issues block and the
    recommendations block exactly when the status is not valid; a block
    that is shown holds the evaluation's own record, issues or
    recommendations, and the badge shows the status. *)
Theorem card_blocks (dns : Resolver) (ev : RecordEvaluation) (type : string) :
  produced dns ev ->
  (record_block (RecordCard ev type) = None <-> status ev = missing) /\
  record_block (RecordCard ev type) = record ev /\
  (issues_block (RecordCard ev type) = None <-> status ev = valid) /\
  (status ev <> valid -> issues_block (RecordCard ev type) = Some (issues ev)) /\
  (recommendations_block (RecordCard ev type) = None <-> status ev = valid) /\
  (status ev <> valid ->
   recommendations_block (RecordCard ev type) = Some (recommendations ev)) /\
  badge_text (RecordCard ev type) = status_string (status ev).
Proof.
  intros P. unfold RecordCard; cbn [record_block issues_block
    recommendations_block badge_text].
  destruct (produced_cases dns ev P)
    as [(S & R & I & C) | [(S & (c & rest & R) & I & C & T) | (S & (c & rest & R) & I & C)]];
    rewrite S, R;
    destruct (issues ev) as [|i il]; destruct (recommendations ev) as [|r rl];
    try congruence; simpl;
    repeat split; intros; try congruence; try discriminate.
Qed.

Lemma card_blocks_witness :
  (record_block (RecordCard (spf_evaluation [all_in_host_name]) "SPF Record") = None <->
   status (spf_evaluation [all_in_host_name]) = missing) /\
  record_block (RecordCard (spf_evaluation [all_in_host_name]) "SPF Record") =
    record (spf_evaluation [all_in_host_name]) /\
  (issues_block (RecordCard (spf_evaluation [all_in_host_name]) "SPF Record") = None <->
   status (spf_evaluation [all_in_host_name]) = valid) /\
  (status (spf_evaluation [all_in_host_name]) <> valid ->
   issues_block (RecordCard (spf_evaluation [all_in_host_name]) "SPF Record") =
     Some (issues (spf_evaluation [all_in_host_name]))) /\
  (recommendations_block (RecordCard (spf_evaluation [all_in_host_name]) "SPF Record")
     = None <->
   status (spf_evaluation [all_in_host_name]) = valid) /\
  (status (spf_evaluation [all_in_host_name]) <> valid ->
   recommendations_block (RecordCard (spf_evaluation [all_in_host_name]) "SPF Record") =
     Some (recommendations (spf_evaluation [all_in_host_name]))) /\
  badge_text (RecordCard (spf_evaluation [all_in_host_name]) "SPF Record") =
    status_string (status (spf_evaluation [all_in_host_name])).
Proof.
  apply (card_blocks no_records (spf_evaluation [all_in_host_name]) "SPF Record").
  apply produced_spf.
Defined.

(** X12. For each of the four statuses the colour of the card, of the
    icon and of the badge are of one hue, green, yellow or red, never the
    gray of the default case; for each overall status the three colours of
    the banner are of one such hue and the image is not the placeholder.
    For a status string that is none of the four, the card and the icon
    take the gray default while the badge is red. *)
Theorem presentation_hues :
  (forall s : RecordStatus, exists hue,
      In hue ["green"; "yellow"; "red"] /\
      getStatusColor (status_string s) =
        ("bg-" ++ hue ++ "-50 border-" ++ hue ++ "-200")%string /\
      className (getStatusIcon (status_string s)) = ("text-" ++ hue ++ "-600")%string /\
      badgeClassName (status_string s) =
        ("px-3 py-1 rounded-full text-sm font-medium bg-" ++ hue ++
         "-100 text-" ++ hue ++ "-800")%string) /\
  (forall o : OverallStatus, exists hue,
      In hue ["green"; "yellow"; "red"] /\
      bgColor (getOverallStatusConfig (overall_string o)) = ("bg-" ++ hue ++ "-50")%string /\
      borderColor (getOverallStatusConfig (overall_string o)) =
        ("border-" ++ hue ++ "-200")%string /\
      textColor (getOverallStatusConfig (overall_string o)) =
        ("text-" ++ hue ++ "-800")%string /\
      image (getOverallStatusConfig (overall_string o)) <> GrayCircle) /\
  (forall status : string,
      ~ In status ["valid"; "warning"; "missing"; "invalid"] ->
      getStatusColor status = "bg-gray-50 border-gray-200" /\
      getStatusIcon status = {| className := "text-gray-600"; text := "?" |} /\
      badgeClassName status =
        "px-3 py-1 rounded-full text-sm font-medium bg-red-100 text-red-800").
Proof.
  split; [|split].
  - intros [| | |];
      [exists "green" | exists "yellow" | exists "red" | exists "red"];
      simpl; repeat split; auto.
  - intros [| |]; [exists "green" | exists "yellow" | exists "red"];
      simpl; repeat split; auto; discriminate.
  - intros status H. unfold getStatusColor, getStatusIcon, badgeClassName.
    destruct (String.eqb_spec status "valid") as [->|_];
      [elim H; simpl; tauto|].
    destruct (String.eqb_spec status "warning") as [->|_];
      [elim H; simpl; tauto|].
    destruct (String.eqb_spec status "missing") as [->|_];
      [elim H; simpl; tauto|].
    destruct (String.eqb_spec status "invalid") as [->|_];
      [elim H; simpl; tauto|].
    repeat split.
Qed.

(** On a typed resolver: after a check of an email that is not empty the
    button is enabled again with its idle label, and the page shows exactly
    one of two things.  For an email without [@] it shows the error message
    and no results.  For an email with [@] it shows no error and the
    results: the domain derived from the email, a banner that is not the
    default one, and the three cards SPF Record, DMARC Record, DKIM Record
    in this order, whose badges are the statuses of the report. *)
Theorem page_after_check (dns : Resolver) (w : World) :
  email w <> EmptyString ->
  button_disabled (render (after_check dns w)) = false /\
  button_label (render (after_check dns w)) = "Check DNS Setup" /\
  input_value (render (after_check dns w)) = email w /\
  ((JS.includes (email w) "@" = false /\
    error_block (render (after_check dns w)) = Some generic_error /\
    results_block (render (after_check dns w)) = None) \/
   (JS.includes (email w) "@" = true /\
    error_block (render (after_check dns w)) = None /\
    exists r res,
      result (after_check dns w) = Some r /\
      results_block (render (after_check dns w)) = Some res /\
      domain_of (email w) = Some (banner_domain res) /\
      banner_image res <> GrayCircle /\
      map card_title (cards res) = ["SPF Record"; "DMARC Record"; "DKIM Record"] /\
      map badge_text (cards res) =
        map status_string [status (Report.spf r); status (Report.dmarc r);
                           status (Report.dkim r)])).
Proof.
  intros Hne. destruct (JS.includes (email w) "@") eqn:I.
  - destruct (proj1 (domain_of_some _) I) as [d D].
    rewrite (after_check_domain dns w d D). cbn [render loading email error result].
    cbn [button_disabled button_label input_value error_block results_block].
    repeat split. right. repeat split.
    eexists. eexists. split; [reflexivity|]. split; [reflexivity|].
    cbn [banner_domain banner_image cards Report.domain map RecordCard
         card_title badge_text]. rewrite D.
    repeat split.
    destruct (Report.overall_status (report_for dns (email w) d (clock w)));
      discriminate.
  - assert (N : nth_error (JS.split (email w) "@") 1 = None)
      by now rewrite (split_no_separator _ _ I).
    rewrite (handleCheck_rejects dns w Hne N). simpl.
    repeat split. left. repeat split.
Qed.

(** * Response bodies of any shape *)

(** ** Runs *)

Section RawRuns.

Variable raw : RawResolver.

(** [checkDNS] never throws, whatever the body. *)
Lemma checkDNS_raw_run (domain recordType : string) (w : World) :
  checkDNS_raw raw domain recordType w =
  (Normal (returned raw (resolveUrl domain recordType)),
   logs_w [resolveUrl domain recordType] w).
Proof.
  unfold checkDNS_raw, try_catch, bind, fetch_raw, json_raw, answer_or_empty,
    returned, ret, throw.
  destruct (raw (resolveUrl domain recordType)) as [| |[| |v]]; reflexivity.
Qed.

Lemma filter_elements_typed (records : list RawAnswer) (marker : string) (w : World) :
  filter_elements (map element_of records) marker w =
  (Normal (map element_of
             (filter (fun record => JS.includes (data record) marker) records)), w).
Proof.
  induction records as [|r l IH]; [reflexivity|].
  cbn [map filter_elements]. unfold bind at 1. cbn [element_of data_includes ret].
  unfold bind at 1. rewrite IH. unfold ret. cbn [filter].
  now destruct (JS.includes (data r) marker).
Qed.

Lemma spf_of_typed (records : list RawAnswer) (w : World) :
  spf_of (map element_of
            (filter (fun record => JS.includes (data record) "v=spf1") records)) w =
  (Normal (spf_evaluation records), w).
Proof.
  unfold spf_evaluation.
  destruct (filter _ records) as [|first l]; [reflexivity|].
  cbn [map spf_of]. unfold bind, data_unquoted, ret, element_of.
  cbv beta iota. now destruct (negb _ && negb _).
Qed.

Lemma dmarc_of_typed (records : list RawAnswer) (w : World) :
  dmarc_of (map element_of
              (filter (fun record => JS.includes (data record) "v=DMARC1") records)) w =
  (Normal (dmarc_evaluation records), w).
Proof.
  unfold dmarc_evaluation.
  destruct (filter _ records) as [|first l]; [reflexivity|].
  cbn [map dmarc_of]. unfold bind, data_unquoted, ret, element_of.
  cbv beta iota. now destruct (JS.includes _ "p=none").
Qed.

(** An element without usable [data], or a value that is no array, makes
    the filter throw, whatever comes before or after it. *)
Lemma filter_elements_throws (elements : list Element) (marker : string) (w : World) :
  existsb (fun e => match e with OtherElement => true | _ => false end) elements
    = true ->
  filter_elements elements marker w = (Throw TypeError, w).
Proof.
  induction elements as [|e l IH]; [discriminate|].
  cbn [existsb filter_elements]. destruct e as [d|strings|]; simpl.
  - intros H. unfold bind at 1. cbn [data_includes ret].
    unfold bind at 1. now rewrite (IH H).
  - intros H. unfold bind at 1. cbn [data_includes ret].
    unfold bind at 1. now rewrite (IH H).
  - reflexivity.
Qed.

Lemma filter_answers_throws (v : AnswerValue) (marker : string) (w : World) :
  filter_throws v = true -> filter_answers v marker w = (Throw TypeError, w).
Proof.
  destruct v as [elements|b]; simpl; [apply filter_elements_throws | reflexivity].
Qed.

End RawRuns.

(** ** The typed resolver inside *)

Lemma agrees_embed (dns : Resolver) : agrees (embed dns) dns.
Proof.
  intros url. unfold returned, embed, answers.
  destruct (dns url) as [| |[records|]]; reflexivity.
Qed.

Lemma typed_elements_back (elements : list Element) :
  forallb is_string_data elements = true ->
  map element_of (typed_elements elements) = elements.
Proof.
  induction elements as [|e l IH]; [reflexivity|].
  destruct e; simpl; try discriminate. intros H. now rewrite (IH H).
Qed.

Lemma agrees_typed_of (raw : RawResolver) :
  well_shaped raw -> agrees raw (typed_of raw).
Proof.
  intros W url. specialize (W url). unfold returned, typed_of, answers.
  destruct (raw url) as [| |[| |[elements|b]]]; simpl in *;
    try reflexivity; try discriminate.
  now rewrite typed_elements_back.
Qed.

Section Simulation.

Variable raw : RawResolver.
Variable dns : Resolver.
Hypothesis same : agrees raw dns.

Lemma length_positive_agrees (url : string) :
  length_positive (returned raw url) = (0 <? length (answers dns url)).
Proof. rewrite same. simpl. now rewrite length_map. Qed.

Lemma dkim_loop_raw_typed (domain : string) (selectors : list string)
      (dkim : RecordEvaluation) (w : World) :
  dkim_loop_raw raw domain selectors dkim w = dkim_loop dns domain selectors dkim w.
Proof.
  revert w; induction selectors as [|selector rest IH]; intros w; [reflexivity|].
  cbn [dkim_loop_raw dkim_loop]. unfold bind.
  rewrite checkDNS_raw_run, checkDNS_run, length_positive_agrees.
  destruct (0 <? length (answers dns _)); [reflexivity | apply IH].
Qed.

Lemma handleCheck_body_raw_run (e part : string) (w : World) :
  nth_error (JS.split e "@") 1 = Some part ->
  handleCheck_body_raw raw e w =
  (Normal tt,
   setResult_w (Some (report_for dns e (JS.toLowerCase part) (clock w)))
               (logs_w (check_urls dns (JS.toLowerCase part)) w)).
Proof.
  intros H. unfold handleCheck_body_raw. rewrite H.
  unfold bind, ret. rewrite checkDNS_raw_run. cbv beta iota.
  rewrite same. cbn [filter_answers]. rewrite filter_elements_typed.
  cbv beta iota. rewrite spf_of_typed. cbv beta iota.
  rewrite checkDNS_raw_run. cbv beta iota.
  rewrite same. cbn [filter_answers]. rewrite filter_elements_typed.
  cbv beta iota. rewrite dmarc_of_typed. cbv beta iota.
  rewrite dkim_loop_raw_typed, dkim_loop_run. cbv beta iota.
  unfold newDateISO, setResult, report_for, check_urls.
  rewrite !logs_w_app. reflexivity.
Qed.

Lemma handleCheck_body_raw_typed (e : string) (w : World) :
  handleCheck_body_raw raw e w = handleCheck_body dns e w.
Proof.
  destruct (nth_error (JS.split e "@") 1) as [part|] eqn:P.
  - now rewrite (handleCheck_body_raw_run e part w P),
                (handleCheck_body_run dns e part w P).
  - rewrite (handleCheck_body_throws dns e w P).
    unfold handleCheck_body_raw. now rewrite P.
Qed.

(** On a resolver that returns what a typed resolver answers, a check is
    the check of the typed resolver. *)
Lemma handleCheck_raw_typed (w : World) :
  handleCheck_raw raw w = handleCheck dns w.
Proof.
  unfold handleCheck_raw, handleCheck, bind, getEmail.
  destruct (String.eqb (email w) EmptyString); [reflexivity|].
  unfold try_finally, try_catch, setLoading, setError, setResult.
  now rewrite handleCheck_body_raw_typed.
Qed.

End Simulation.

(** On the responses a typed resolver can give, the code over bodies of
    any shape is the code over typed bodies. *)
Lemma handleCheck_raw_embed (dns : Resolver) (w : World) :
  handleCheck_raw (embed dns) w = handleCheck dns w.
Proof. exact (handleCheck_raw_typed (embed dns) dns (agrees_embed dns) w). Qed.

Lemma after_check_raw_well_shaped (raw : RawResolver) (w : World) :
  well_shaped raw -> after_check_raw raw w = after_check (typed_of raw) w.
Proof.
  intros W. unfold after_check_raw, after_check.
  now rewrite (handleCheck_raw_typed raw (typed_of raw) (agrees_typed_of raw W)).
Qed.

(** ** A check sees the resolver through what [checkDNS] returns *)

Lemma bind_ext {A B} (m m' : Js A) (k k' : A -> Js B) (w : World) :
  m w = m' w ->
  (forall a w', k a w' = k' a w') ->
  bind m k w = bind m' k' w.
Proof.
  intros E H. unfold bind. rewrite E.
  destruct (m' w) as [[a|e] w']; [apply H | reflexivity].
Qed.

Section SameReturned.

Variables r1 r2 : RawResolver.
Hypothesis same : forall url, returned r1 url = returned r2 url.

Lemma checkDNS_raw_same (domain recordType : string) (w : World) :
  checkDNS_raw r1 domain recordType w = checkDNS_raw r2 domain recordType w.
Proof. now rewrite !checkDNS_raw_run, same. Qed.

Lemma dkim_loop_raw_same (domain : string) (selectors : list string)
      (dkim : RecordEvaluation) (w : World) :
  dkim_loop_raw r1 domain selectors dkim w = dkim_loop_raw r2 domain selectors dkim w.
Proof.
  revert w; induction selectors as [|selector rest IH]; intros w; [reflexivity|].
  cbn [dkim_loop_raw]. apply bind_ext; [apply checkDNS_raw_same|].
  intros a w'. destruct (length_positive a); [reflexivity | apply IH].
Qed.

Lemma handleCheck_body_raw_same (e : string) (w : World) :
  handleCheck_body_raw r1 e w = handleCheck_body_raw r2 e w.
Proof.
  unfold handleCheck_body_raw.
  repeat (apply bind_ext;
          [first [reflexivity | apply checkDNS_raw_same | apply dkim_loop_raw_same]
          | intros]).
  reflexivity.
Qed.

Lemma handleCheck_raw_same (w : World) :
  handleCheck_raw r1 w = handleCheck_raw r2 w.
Proof.
  unfold handleCheck_raw, bind, getEmail.
  destruct (String.eqb (email w) EmptyString); [reflexivity|].
  unfold try_finally, try_catch, setLoading, setError, setResult.
  now rewrite handleCheck_body_raw_same.
Qed.

End SameReturned.

Lemma returned_transport_failure (raw : RawResolver) (url : string) :
  transport_failure_raw (raw url) -> returned raw url = AnArray [].
Proof. unfold returned. now intros [-> | [-> | [-> | ->]]]. Qed.

Lemma returned_absent_at (raw : RawResolver) (url : string) :
  transport_failure_raw (raw url) ->
  forall u, returned raw u = returned (absent_at_raw url raw) u.
Proof.
  intros H u. unfold absent_at_raw, returned at 2.
  destruct (String.eqb_spec u url) as [->|]; [|reflexivity].
  now apply returned_transport_failure.
Qed.

(** ** Transport failures and bodies of another shape *)

(** A parsed body whose [Answer] has an element without [data] is not
    taken for an empty answer set: [checkDNS] returns the array as it is,
    the filter of the SPF evaluation throws, and the check ends after its
    first request with the error message and no report, where the same
    check with an empty answer set at this request ends with a report
    whose SPF evaluation is the missing one. *)
Lemma ill_shaped_body_is_not_empty :
  raw_outcome_is_parsed answer_without_data (resolveUrl "example.com" "TXT") = true /\
  fst (checkDNS_raw answer_without_data "example.com" "TXT"
                    (fresh "postmaster@example.com")) =
    Normal (AnArray [OtherElement]) /\
  result (after_check_raw answer_without_data (fresh "postmaster@example.com")) = None /\
  error (after_check_raw answer_without_data (fresh "postmaster@example.com")) =
    "An error occurred while checking DNS records. Please try again." /\
  fetched (after_check_raw answer_without_data (fresh "postmaster@example.com")) =
    ["https://dns.google/resolve?name=example.com&type=TXT"] /\
  option_map Report.spf
    (result (after_check_raw
               (absent_at_raw (resolveUrl "example.com" "TXT") answer_without_data)
               (fresh "postmaster@example.com"))) = Some spf_missing /\
  after_check_raw answer_without_data (fresh "postmaster@example.com") <>
  after_check_raw (absent_at_raw (resolveUrl "example.com" "TXT") answer_without_data)
                  (fresh "postmaster@example.com").
Proof.
  repeat split; try reflexivity.
  intros H. apply (f_equal result) in H. vm_compute in H. discriminate.
Qed.

(** C7, as the code has it. A call of [checkDNS] whose request fails in
    transport (the network fails, the body is not JSON, or the parsed body
    is [null] or has no truthy answer field) does not throw: it returns the
    empty answer set.  Whatever the other responses are, a check runs
    exactly as with a resolver that answers this request with an empty
    answer array, and on what the call returned the SPF and the DMARC
    evaluation are the missing ones, as a DKIM selector queried by the
    call counts as having no answer. *)
Theorem transport_failure_returns_empty
        (raw : RawResolver) (domain recordType : string) (w : World) :
  transport_failure_raw (raw (resolveUrl domain recordType)) ->
  checkDNS_raw raw domain recordType w =
    (Normal (AnArray []), logs_w [resolveUrl domain recordType] w) /\
  (forall w', handleCheck_raw raw w' =
              handleCheck_raw (absent_at_raw (resolveUrl domain recordType) raw) w') /\
  (forall w', bind (filter_answers (returned raw (resolveUrl domain recordType)) "v=spf1")
                   spf_of w' =
              (Normal {| type := "SPF"; status := missing; record := None;
                         issues := ["No SPF record found"];
                         recommendations :=
                           ["Add an SPF record to your DNS";
                            "Example: v=spf1 include:_spf.google.com ~all"] |}, w')) /\
  (forall w', bind (filter_answers (returned raw (resolveUrl domain recordType)) "v=DMARC1")
                   dmarc_of w' =
              (Normal {| type := "DMARC"; status := missing; record := None;
                         issues := ["No DMARC record found"];
                         recommendations :=
                           ["Add a DMARC record to your DNS";
                            "Example: v=DMARC1; p=quarantine; rua=mailto:dmarc@yourdomain.com"] |},
               w')) /\
  length_positive (returned raw (resolveUrl domain recordType)) = false.
Proof.
  intros H.
  pose proof (returned_transport_failure _ _ H) as R.
  split; [now rewrite checkDNS_raw_run, R|].
  split; [intros w'; apply handleCheck_raw_same, returned_absent_at, H|].
  rewrite R. repeat split.
Qed.

Lemma transport_failure_returns_empty_witness :
  checkDNS_raw network_down_raw "example.com" "TXT" (fresh "postmaster@example.com") =
    (Normal (AnArray []),
     logs_w [resolveUrl "example.com" "TXT"] (fresh "postmaster@example.com")) /\
  (forall w', handleCheck_raw network_down_raw w' =
              handleCheck_raw
                (absent_at_raw (resolveUrl "example.com" "TXT") network_down_raw) w') /\
  (forall w', bind (filter_answers
                      (returned network_down_raw (resolveUrl "example.com" "TXT"))
                      "v=spf1")
                   spf_of w' =
              (Normal {| type := "SPF"; status := missing; record := None;
                         issues := ["No SPF record found"];
                         recommendations :=
                           ["Add an SPF record to your DNS";
                            "Example: v=spf1 include:_spf.google.com ~all"] |}, w')) /\
  (forall w', bind (filter_answers
                      (returned network_down_raw (resolveUrl "example.com" "TXT"))
                      "v=DMARC1")
                   dmarc_of w' =
              (Normal {| type := "DMARC"; status := missing; record := None;
                         issues := ["No DMARC record found"];
                         recommendations :=
                           ["Add a DMARC record to your DNS";
                            "Example: v=DMARC1; p=quarantine; rua=mailto:dmarc@yourdomain.com"] |},
               w')) /\
  length_positive (returned network_down_raw (resolveUrl "example.com" "TXT")) = false.
Proof.
  apply (transport_failure_returns_empty network_down_raw "example.com" "TXT"
           (fresh "postmaster@example.com")).
  left. reflexivity.
Defined.

(** X14. For an ASCII email with a domain: when the body of the first
    request, for the TXT records of the domain, has a truthy answer field
    that is no array, or an array with an element without usable data
    anywhere in it, even behind a good SPF record, the check ends after
    this one request: no report, the error message, and the loading flag
    cleared. *)
Theorem ill_shaped_answers_end_the_check (raw : RawResolver) (w : World) (d : string) :
  ascii_only (email w) = true ->
  domain_of (email w) = Some d ->
  filter_throws (returned raw (resolveUrl d "TXT")) = true ->
  after_check_raw raw w =
  {| email := email w; loading := false; result := None;
     error := "An error occurred while checking DNS records. Please try again.";
     fetched := fetched w ++ [resolveUrl d "TXT"];
     clock := clock w |}.
Proof.
  intros _ D T. pose proof (domain_of_nonempty _ _ D) as Hne.
  unfold domain_of in D.
  destruct (nth_error (JS.split (email w) "@") 1) as [part|] eqn:P; [|discriminate].
  injection D as <-.
  unfold after_check_raw, handleCheck_raw, bind at 1, getEmail.
  destruct (String.eqb_spec (email w) "") as [E|_]; [contradiction|].
  unfold bind at 1. unfold bind at 1. unfold bind at 1.
  unfold try_finally, try_catch, setLoading, setError, setResult.
  unfold handleCheck_body_raw. rewrite P. unfold bind at 1. cbn [ret].
  unfold bind at 1. rewrite checkDNS_raw_run. unfold bind at 1.
  rewrite (filter_answers_throws _ _ _ T). reflexivity.
Qed.

Lemma ill_shaped_answers_end_the_check_witness :
  after_check_raw spf_then_no_data (fresh "postmaster@example.com") =
  {| email := email (fresh "postmaster@example.com"); loading := false;
     result := None;
     error := "An error occurred while checking DNS records. Please try again.";
     fetched := fetched (fresh "postmaster@example.com") ++
                [resolveUrl "example.com" "TXT"];
     clock := clock (fresh "postmaster@example.com") |}.
Proof.
  apply (ill_shaped_answers_end_the_check spf_then_no_data
           (fresh "postmaster@example.com") "example.com"); reflexivity.
Defined.

(** ** Checks of ASCII emails on well-shaped responses *)

Lemma well_shaped_embed (dns : Resolver) : well_shaped (embed dns).
Proof.
  intros url. unfold embed. destruct (dns url) as [| |[records|]]; try reflexivity.
  simpl. induction records as [|r l IH]; [reflexivity | exact IH].
Qed.

(** X1. On responses of the shape the code expects and for an ASCII
    email, the domain of the report is the text between the first and the
    second [@] of the email, in lower case; what follows a second [@] is
    ignored, and the email field keeps the email as typed. *)
Theorem checked_domain_is_second_piece
        (raw : RawResolver) (w : World) (user host rest : string) :
  well_shaped raw ->
  ascii_only (email w) = true ->
  email w = (user ++ "@" ++ host ++ rest)%string ->
  free_of "@" user = true ->
  free_of "@" host = true ->
  rest = EmptyString \/ (exists more, rest = String "@" more) ->
  exists r, result (after_check_raw raw w) = Some r /\
            Report.domain r = JS.toLowerCase host /\
            Report.email r = email w /\
            error (after_check_raw raw w) = EmptyString.
Proof.
  intros W _ E Fu Fh Hrest. rewrite (after_check_raw_well_shaped raw w W).
  exact (domain_is_second_piece (typed_of raw) w user host rest E Fu Fh Hrest).
Qed.

Lemma checked_domain_is_second_piece_witness :
  exists r,
    result (after_check_raw (embed no_records) (fresh "Bob@Example.COM@evil.test"))
      = Some r /\
    Report.domain r = JS.toLowerCase "Example.COM" /\
    Report.email r = email (fresh "Bob@Example.COM@evil.test") /\
    error (after_check_raw (embed no_records) (fresh "Bob@Example.COM@evil.test"))
      = EmptyString.
Proof.
  apply (checked_domain_is_second_piece (embed no_records)
           (fresh "Bob@Example.COM@evil.test") "Bob" "Example.COM" "@evil.test").
  - intros url. reflexivity.
  - reflexivity.
  - reflexivity.
  - reflexivity.
  - reflexivity.
  - right. exists "evil.test". reflexivity.
Defined.



(** X3. On responses of the shape the code expects, a check of an ASCII
    email with a domain makes between three and five requests, always in
    the same order: the TXT records of the domain, those of [_dmarc.] the
    domain, then the selectors default, selector1, google one after the
    other; the selector requests stop before the end of the list only at
    a selector whose answer array is not empty. *)
Theorem checked_requests (raw : RawResolver) (w : World) (d : string) :
  well_shaped raw ->
  ascii_only (email w) = true ->
  domain_of (email w) = Some d ->
  exists n, 1 <= n <= 3 /\
    fetched (after_check_raw raw w) =
      fetched w ++
      resolveUrl d "TXT" :: resolveUrl ("_dmarc." ++ d)%string "TXT" ::
      map (fun selector => resolveUrl (selector ++ "._domainkey." ++ d)%string "TXT")
          (firstn n ["default"; "selector1"; "google"]) /\
    length (fetched (after_check_raw raw w)) = length (fetched w) + 2 + n /\
    (n < 3 -> exists selector,
        nth_error ["default"; "selector1"; "google"] (n - 1) = Some selector /\
        length_positive
          (returned raw (resolveUrl (selector ++ "._domainkey." ++ d)%string "TXT"))
          = true).
Proof.
  intros W _ D. rewrite (after_check_raw_well_shaped raw w W).
  destruct (check_requests (typed_of raw) w d D) as (n & Hn & F & L & Hit).
  exists n. split; [exact Hn|]. split; [exact F|]. split; [exact L|].
  intros Hlt. destruct (Hit Hlt) as (selector & Hs & Ha).
  exists selector. split; [exact Hs|].
  rewrite (length_positive_agrees raw (typed_of raw) (agrees_typed_of raw W)).
  destruct (answers (typed_of raw) _); [now elim Ha | reflexivity].
Qed.

Lemma checked_requests_witness :
  exists n, 1 <= n <= 3 /\
    fetched (after_check_raw (embed default_and_google) (fresh "postmaster@example.com")) =
      fetched (fresh "postmaster@example.com") ++
      resolveUrl "example.com" "TXT" ::
      resolveUrl ("_dmarc." ++ "example.com")%string "TXT" ::
      map (fun selector =>
             resolveUrl (selector ++ "._domainkey." ++ "example.com")%string "TXT")
          (firstn n ["default"; "selector1"; "google"]) /\
    length (fetched (after_check_raw (embed default_and_google)
                                     (fresh "postmaster@example.com"))) =
      length (fetched (fresh "postmaster@example.com")) + 2 + n /\
    (n < 3 -> exists selector,
        nth_error ["default"; "selector1"; "google"] (n - 1) = Some selector /\
        length_positive
          (returned (embed default_and_google)
             (resolveUrl (selector ++ "._domainkey." ++ "example.com")%string "TXT"))
          = true).
Proof.
  apply (checked_requests (embed default_and_google)
           (fresh "postmaster@example.com") "example.com").
  - intros url. unfold embed, default_and_google.
    destruct (String.eqb url (selectorUrl "example.com" "default")); [reflexivity|].
    destruct (String.eqb url (selectorUrl "example.com" "google")); reflexivity.
  - reflexivity.
  - reflexivity.
Defined.

(** X13. On responses of the shape the code expects, after a check of an
    ASCII email that is not empty the button is enabled again with its
    idle label, and the page shows exactly one of two things.  For an
    email without [@] it shows the error message and no results.  For an
    email with [@] it shows no error and the results: the domain derived
    from the email, a banner that is not the default one, and the three
    cards SPF Record, DMARC Record, DKIM Record in this order, whose
    badges are the statuses of the report. *)
Theorem page_after_checked (raw : RawResolver) (w : World) :
  well_shaped raw ->
  ascii_only (email w) = true ->
  email w <> EmptyString ->
  button_disabled (render (after_check_raw raw w)) = false /\
  button_label (render (after_check_raw raw w)) = "Check DNS Setup" /\
  input_value (render (after_check_raw raw w)) = email w /\
  ((JS.includes (email w) "@" = false /\
    error_block (render (after_check_raw raw w)) = Some generic_error /\
    results_block (render (after_check_raw raw w)) = None) \/
   (JS.includes (email w) "@" = true /\
    error_block (render (after_check_raw raw w)) = None /\
    exists r res,
      result (after_check_raw raw w) = Some r /\
      results_block (render (after_check_raw raw w)) = Some res /\
      domain_of (email w) = Some (banner_domain res) /\
      banner_image res <> GrayCircle /\
      map card_title (cards res) = ["SPF Record"; "DMARC Record"; "DKIM Record"] /\
      map badge_text (cards res) =
        map status_string [status (Report.spf r); status (Report.dmarc r);
                           status (Report.dkim r)])).
Proof.
  intros W _ Hne. rewrite (after_check_raw_well_shaped raw w W).
  exact (page_after_check (typed_of raw) w Hne).
Qed.

Lemma page_after_checked_witness :
  button_disabled
    (render (after_check_raw (embed no_records) (stale_page "postmaster@example.com")))
    = false /\
  button_label
    (render (after_check_raw (embed no_records) (stale_page "postmaster@example.com")))
    = "Check DNS Setup" /\
  input_value
    (render (after_check_raw (embed no_records) (stale_page "postmaster@example.com")))
    = email (stale_page "postmaster@example.com") /\
  ((JS.includes (email (stale_page "postmaster@example.com")) "@" = false /\
    error_block
      (render (after_check_raw (embed no_records) (stale_page "postmaster@example.com")))
      = Some generic_error /\
    results_block
      (render (after_check_raw (embed no_records) (stale_page "postmaster@example.com")))
      = None) \/
   (JS.includes (email (stale_page "postmaster@example.com")) "@" = true /\
    error_block
      (render (after_check_raw (embed no_records) (stale_page "postmaster@example.com")))
      = None /\
    exists r res,
      result (after_check_raw (embed no_records) (stale_page "postmaster@example.com"))
        = Some r /\
      results_block
        (render (after_check_raw (embed no_records) (stale_page "postmaster@example.com")))
        = Some res /\
      domain_of (email (stale_page "postmaster@example.com")) = Some (banner_domain res) /\
      banner_image res <> GrayCircle /\
      map card_title (cards res) = ["SPF Record"; "DMARC Record"; "DKIM Record"] /\
      map badge_text (cards res) =
        map status_string [status (Report.spf r); status (Report.dmarc r);
                           status (Report.dkim r)])).
Proof.
  apply (page_after_checked (embed no_records) (stale_page "postmaster@example.com")).
  - intros url. reflexivity.
  - reflexivity.
  - simpl. discriminate.
Defined.
